(** * thicket_new: the call-graph engine (graph.py, node.py)

    A shallow embedding of the two Python modules and the properties of
    the graph engine that the specification states about them.

    Conventions of the embedding:
    - Python integers are [Z]; a Python [set] of integers is a [gset Z];
      a [dict] whose iteration order matters is an association list.
    - A Python call either returns or raises: [outcome].  A method that
      mutates [self] is a function from the receiver's state to an outcome
      and the state the receiver is left in (also when it raises).
    - [rx] is the part of the rustworkx library ([PyDiGraph] and
      [digraph_dfs_search]) that graph.py calls.  It is not part of the
      repository; it is modelled after its documentation, each call with
      the parameters the library declares. *)

From stdpp Require Import gmap strings list sorting.
From Stdlib Require Import ZArith Lia.

Local Open Scope Z_scope.

(** ** Python values and exceptions *)

Inductive exn :=
| TypeError
| ValueError
| AttributeError
| KeyError
| IndexError
| OverflowError
| PanicException
| DAGWouldCycle.

Inductive outcome (A : Type) :=
| Return (a : A)
| Raise (e : exn).
Arguments Return {A} a.
Arguments Raise {A} e.

Definition obind {A B} (x : outcome A) (k : A → outcome B) : outcome B :=
  match x with
  | Return a => k a
  | Raise e => Raise e
  end.

Notation "'try' x ← c ; k" := (obind c (λ x, k))
  (at level 10, x name, c at level 100, k at level 200).

#[global] Instance exn_eq_dec : EqDecision exn.
Proof. solve_decision. Defined.

(** Modelled from the spec: frame.py is absent.  A Frame is a value-typed
    bundle of named attributes with value equality; [Frame_copy] is its
    [copy()] and [Frame_values] its [values(names)], the values of the
    named attributes in the order asked. *)
Definition Frame := list (string * string).

(** Modelled from the spec: [Frame.copy()] of the absent frame.py, a Frame
    equal to the one copied. *)
Definition Frame_copy (f : Frame) : Frame := f.

(** Modelled from the spec: [Frame.values(names)] of the absent frame.py. *)
Definition Frame_values (f : Frame) (names : list string) : list string :=
  omap (λ a, snd <$> List.find (λ kv, String.eqb (fst kv) a) f) names.

(** The fields of a Node object (node.py, [Node.__init__]). *)
Record Node_t := mkNode {
  frame : Frame;
  _hatchet_nid : Z;
  _depth : Z
}.

#[global] Instance Node_eq_dec : EqDecision Node_t.
Proof. solve_decision. Defined.

(** A value that graph.py passes around: [None], an integer, a string, a
    sequence of strings, a Frame, a Node object, or a reference to a
    [dict] object on the heap. *)
Inductive pyobj :=
| PyNone
| PyInt (z : Z)
| PyStr (s : string)
| PyNames (l : list string)
| PyFrame (f : Frame)
| PyNode (n : Node_t)
| PyRef (l : nat).

#[global] Instance pyobj_eq_dec : EqDecision pyobj.
Proof. solve_decision. Defined.

(** *** The call protocol

    How Python binds the arguments of a call to the parameters of a
    function: positional arguments fill the parameters from the left (one
    too many is a TypeError), each keyword argument fills the parameter of
    that name (no such parameter, or a parameter already filled, is a
    TypeError), and a parameter left unfilled takes its default (none: a
    TypeError). *)

Fixpoint fill_positional (params : list string) (args : list pyobj)
  : outcome (list (string * option pyobj)) :=
  match params, args with
  | [], [] => Return []
  | [], _ :: _ => Raise TypeError
  | p :: ps, [] =>
      try r ← fill_positional ps []; Return ((p, None) :: r)
  | p :: ps, a :: args' =>
      try r ← fill_positional ps args'; Return ((p, Some a) :: r)
  end.

Fixpoint fill_keyword (slots : list (string * option pyobj)) (kw : string * pyobj)
  : outcome (list (string * option pyobj)) :=
  match slots with
  | [] => Raise TypeError
  | (p, v) :: rest =>
      if String.eqb p (fst kw) then
        match v with
        | Some _ => Raise TypeError
        | None => Return ((p, Some (snd kw)) :: rest)
        end
      else try r ← fill_keyword rest kw; Return ((p, v) :: r)
  end.

Fixpoint fill_keywords (slots : list (string * option pyobj)) (kwargs : list (string * pyobj))
  : outcome (list (string * option pyobj)) :=
  match kwargs with
  | [] => Return slots
  | kw :: rest => try s ← fill_keyword slots kw; fill_keywords s rest
  end.

Fixpoint fill_defaults (slots : list (string * option pyobj)) (defaults : list (option pyobj))
  : outcome (list pyobj) :=
  match slots, defaults with
  | [], _ => Return []
  | (_, Some v) :: rest, _ :: ds =>
      try r ← fill_defaults rest ds; Return (v :: r)
  | (_, None) :: rest, Some dflt :: ds =>
      try r ← fill_defaults rest ds; Return (dflt :: r)
  | _, _ => Raise TypeError
  end.

(** [params] lists each parameter after [self] with its default. *)
Definition bind_params (params : list (string * option pyobj))
    (args : list pyobj) (kwargs : list (string * pyobj)) : outcome (list pyobj) :=
  try s ← fill_positional (fst <$> params) args;
  try s ← fill_keywords s kwargs;
  fill_defaults s (snd <$> params).

(** [a == b] on the values above.  A Node compares through
    [Node.__eq__], which reads [other._hatchet_nid]: against anything but
    a Node that is an AttributeError (from either side, since the other
    operand first answers NotImplemented). *)
Definition py_eq (a b : pyobj) : outcome bool :=
  match a, b with
  | PyNode n, PyNode m => Return (_hatchet_nid n =? _hatchet_nid m)
  | PyNode _, _ | _, PyNode _ => Raise AttributeError
  | _, _ => Return (bool_decide (a = b))
  end.

(** [x in seq] for a tuple or list: the first element equal to [x]. *)
Fixpoint py_in (x : pyobj) (seq : list pyobj) : outcome bool :=
  match seq with
  | [] => Return false
  | e :: rest =>
      try b ← py_eq e x;
      if b then Return true else py_in x rest
  end.

(** ** node.py *)

Module Node.

Abbreviation t := Node_t.

(** [__init__(self, frame: Frame, hnid=-1, depth=-1)].  The annotation
    and the integer defaults are taken as the types of the fields. *)
Definition __init__ (args : list pyobj) (kwargs : list (string * pyobj)) : outcome t :=
  try vals ← bind_params
      [("frame"%string, None); ("hnid"%string, Some (PyInt (-1)));
       ("depth"%string, Some (PyInt (-1)))] args kwargs;
  match vals with
  | [PyFrame f; PyInt hnid; PyInt depth] => Return (mkNode f hnid depth)
  | _ => Raise TypeError
  end.

Definition __hash__ (self : t) : Z := _hatchet_nid self.

Definition __eq__ (self other : t) : bool :=
  _hatchet_nid self =? _hatchet_nid other.

Definition __lt__ (self other : t) : bool :=
  _hatchet_nid self <? _hatchet_nid other.

Definition __gt__ (self other : t) : bool :=
  _hatchet_nid self >? _hatchet_nid other.

(** [copy]: [return Node(frame_obj=self.frame.copy())]. *)
Definition copy (self : t) : outcome t :=
  __init__ [] [("frame_obj"%string, PyFrame (Frame_copy (frame self)))].

End Node.

(** The built-in [hash(obj)] on an object whose class defines [__hash__]
    (CPython, 64-bit): the value [__hash__] returns is kept when it fits
    the machine word and reduced modulo [2^61 - 1] (keeping the sign) when
    it does not, and [-1], which the interpreter reserves for errors, is
    replaced by [-2]. *)
Definition hash_of (h : Z) : Z :=
  let r := if bool_decide (- 2 ^ 63 ≤ h < 2 ^ 63) then h
           else Z.sgn h * (Z.abs h mod (2 ^ 61 - 1)) in
  if bool_decide (r = -1) then -2 else r.

(** [hash(node)] *)
Definition hash (n : Node_t) : Z := hash_of (Node.__hash__ n).

(** [hash(z)] for an [int]. *)
Definition hash_int (z : Z) : Z :=
  let r := Z.sgn z * (Z.abs z mod (2 ^ 61 - 1)) in
  if bool_decide (r = -1) then -2 else r.

(** ** rustworkx

    The library is not part of the repository; this is its documented
    behaviour, each method with the parameters the library declares.
    [PyDiGraph(check_cycle, multigraph)]: a directed graph whose nodes are
    integer indices carrying a payload.  Indices are handed out by a
    stable-index store: the slot freed last is reused first, otherwise the
    next unused index is taken.  [edge_list] holds the edges in the order
    they were added; the data an edge carries is not modelled.  A method
    receives its positional arguments as a list: a call with too few or
    too many is a TypeError before anything else happens, as is an index
    argument that is not an [int]; an index outside the machine word
    (negative, or [2^64] and above) is an OverflowError. *)

Module rx.

Record PyDiGraph := mk {
  check_cycle : bool;
  multigraph : bool;
  weights : gmap Z pyobj;
  edge_list : list (Z * Z);
  free : list Z;
  bound : Z
}.

Definition new (check_cycle multigraph : bool) : PyDiGraph :=
  mk check_cycle multigraph ∅ [] [] 0.

(** An index argument converted to the library's unsigned machine word. *)
Definition usize (z : Z) : outcome Z :=
  if bool_decide (0 ≤ z < 2 ^ 64) then Return z else Raise OverflowError.

Definition has_node (d : PyDiGraph) (i : Z) : bool :=
  bool_decide (i ∈ dom (weights d)).

Definition with_edges (d : PyDiGraph) (es : list (Z * Z)) : PyDiGraph :=
  mk (check_cycle d) (multigraph d) (weights d) es (free d) (bound d).

(** A new node with payload [w]; returns its index. *)
Definition alloc (d : PyDiGraph) (w : pyobj) : Z * PyDiGraph :=
  match free d with
  | i :: fr =>
      (i, mk (check_cycle d) (multigraph d) (<[i := w]> (weights d))
             (edge_list d) fr (bound d))
  | [] =>
      (bound d, mk (check_cycle d) (multigraph d) (<[bound d := w]> (weights d))
                   (edge_list d) [] (bound d + 1))
  end.

(** [add_node(obj, /)] *)
Definition add_node (d : PyDiGraph) (args : list pyobj) : outcome Z * PyDiGraph :=
  match args with
  | [obj] => let '(i, d1) := alloc d obj in (Return i, d1)
  | _ => (Raise TypeError, d)
  end.

(** [add_parent(child, obj, edge, /)]: a new node holding [obj], with an
    edge from the new node to [child]; returns the new node's index.  The
    node is stored before the edge is: with no node at [child] the library
    panics with the new node already in the graph. *)
Definition add_parent (d : PyDiGraph) (args : list pyobj) : outcome Z * PyDiGraph :=
  match args with
  | [PyInt child; obj; edge] =>
      match usize child with
      | Raise e => (Raise e, d)
      | Return child =>
          let '(i, d1) := alloc d obj in
          if has_node d child
          then (Return i, with_edges d1 (edge_list d1 ++ [(i, child)]))
          else (Raise PanicException, d1)
      end
  | _ => (Raise TypeError, d)
  end.

(** [dag[i] = obj] and [dag[i]]. *)
Definition setitem (d : PyDiGraph) (i : Z) (w : pyobj) : outcome unit * PyDiGraph :=
  match usize i with
  | Raise e => (Raise e, d)
  | Return i =>
      if has_node d i then
        (Return (), mk (check_cycle d) (multigraph d) (<[i := w]> (weights d))
                       (edge_list d) (free d) (bound d))
      else (Raise IndexError, d)
  end.

Definition getitem (d : PyDiGraph) (i : Z) : outcome pyobj :=
  try i ← usize i;
  match weights d !! i with
  | Some w => Return w
  | None => Raise IndexError
  end.

(** Reachability along edges, computed by saturation: after [n] rounds
    the set holds every node that a walk of at most [n] edges reaches. *)
Definition succs (es : list (Z * Z)) (s : gset Z) : gset Z :=
  list_to_set (snd <$> filter (λ e, fst e ∈ s) es).

Definition grow (es : list (Z * Z)) (s : gset Z) : gset Z := s ∪ succs es s.

Fixpoint saturate (n : nat) (es : list (Z * Z)) (s : gset Z) : gset Z :=
  match n with
  | O => s
  | S k => saturate k es (grow es s)
  end.

Definition has_path (d : PyDiGraph) (src tgt : Z) : bool :=
  bool_decide (tgt ∈ saturate (length (edge_list d)) (edge_list d) {[src]}).

(** The edges that enter and that leave a node, oldest first. *)
Definition edges_into (d : PyDiGraph) (i : Z) : list (Z * Z) :=
  filter (λ e, snd e = i) (edge_list d).

Definition edges_from (d : PyDiGraph) (i : Z) : list (Z * Z) :=
  filter (λ e, fst e = i) (edge_list d).

(** The library looks for a cycle only when the new edge could close one:
    when [parent] has an entering edge, [child] has a leaving edge and the
    edge is not in the graph yet. *)
Definition cycle_check_required (d : PyDiGraph) (parent child : Z) : bool :=
  negb (bool_decide (edges_into d parent = [])) &&
  negb (bool_decide (edges_from d child = [])) &&
  negb (bool_decide ((parent, child) ∈ edge_list d)).

(** The edge insertion behind [add_edge] and [merge_nodes].  With
    [check_cycle], when the check is required and [parent] can be reached
    from [child], it raises DAGWouldCycle and adds nothing.  Without
    [multigraph] an edge that is already there is not added again. *)
Definition _add_edge (d : PyDiGraph) (parent child : Z) : outcome unit * PyDiGraph :=
  if check_cycle d && cycle_check_required d parent child && has_path d child parent
  then (Raise DAGWouldCycle, d)
  else if negb (multigraph d) && bool_decide ((parent, child) ∈ edge_list d)
  then (Return (), d)
  else (Return (), with_edges d (edge_list d ++ [(parent, child)])).

(** [add_edge(parent, child, edge, /)] *)
Definition add_edge (d : PyDiGraph) (args : list pyobj) : outcome unit * PyDiGraph :=
  match args with
  | [PyInt parent; PyInt child; edge] =>
      match usize parent, usize child with
      | Raise e, _ | Return _, Raise e => (Raise e, d)
      | Return parent, Return child =>
          if negb (has_node d parent && has_node d child) then (Raise IndexError, d)
          else _add_edge d parent child
      end
  | _ => (Raise TypeError, d)
  end.

(** [in_edges(node)] and [out_edges(node)]: the edges as (tail, head)
    pairs, the newest edge first; none for an index that holds no node. *)
Definition in_edges (d : PyDiGraph) (i : Z) : outcome (list (Z * Z)) :=
  try i ← usize i; Return (reverse (edges_into d i)).

Definition out_edges (d : PyDiGraph) (i : Z) : outcome (list (Z * Z)) :=
  try i ← usize i; Return (reverse (edges_from d i)).

(** [in_degree(node)], for the index of a node. *)
Definition in_degree (d : PyDiGraph) (i : Z) : nat := length (edges_into d i).

(** Node indices in ascending order. *)
Definition node_indices (d : PyDiGraph) : list Z :=
  merge_sort Z.le (elements (dom (weights d))).

Definition remove_node (d : PyDiGraph) (u : Z) : PyDiGraph :=
  if has_node d u then
    mk (check_cycle d) (multigraph d) (delete u (weights d))
       (filter (λ e, fst e ≠ u ∧ snd e ≠ u) (edge_list d))
       (u :: free d) (bound d)
  else d.

Fixpoint add_edges (d : PyDiGraph) (es : list (Z * Z)) : outcome unit * PyDiGraph :=
  match es with
  | [] => (Return (), d)
  | (p, c) :: rest =>
      match _add_edge d p c with
      | (Return _, d1) => add_edges d1 rest
      | (Raise e, d1) => (Raise e, d1)
      end
  end.

(** [merge_nodes(u, v)]: when the payloads of [u] and [v] compare equal,
    every edge of [u] is re-attached to [v] and [u] is removed; when they
    do not, nothing changes. *)
Definition merge_nodes (d : PyDiGraph) (u v : Z) : outcome unit * PyDiGraph :=
  match usize u, usize v with
  | Raise e, _ | Return _, Raise e => (Raise e, d)
  | Return u, Return v =>
      match weights d !! u, weights d !! v with
      | Some wu, Some wv =>
          match py_eq wu wv with
          | Raise e => (Raise e, d)
          | Return false => (Return (), d)
          | Return true =>
              let moved :=
                ((λ e, (v, snd e)) <$> edges_from d u) ++
                ((λ e, (fst e, v)) <$> edges_into d u) in
              add_edges (remove_node d u) moved
          end
      | _, _ => (Raise IndexError, d)
      end
  end.

(** [copy()]: a new graph object with the same nodes, payloads and edges
    (the payload objects themselves are shared). *)
Definition copy (d : PyDiGraph) : PyDiGraph := d.

(** [digraph_dfs_search(graph, source, visitor)]: a depth-first search
    from each source in turn, skipping what is already discovered.  The
    visitor is told when a vertex is discovered and when it is finished,
    each with a time stamp.  [V] is the visitor's state.  The recursion
    is bounded by [fuel]; one more than the number of nodes is enough. *)
Section dfs.
Context {V : Type} (discover_vertex finish_vertex : V → Z → Z → V).

Definition dfs_state : Type := gset Z * Z * V.

Fixpoint dfs_visit (fuel : nat) (d : PyDiGraph) (st : dfs_state) (v : Z) : dfs_state :=
  match fuel with
  | O => st
  | S k =>
      let '(seen, time, vis) := st in
      if bool_decide (v ∈ seen) then st
      else
        let st1 := ({[v]} ∪ seen, time + 1, discover_vertex vis v time) in
        let '(seen2, time2, vis2) :=
          foldl (dfs_visit k d) st1 (snd <$> reverse (edges_from d v)) in
        (seen2, time2 + 1, finish_vertex vis2 v time2)
  end.

Definition digraph_dfs_search (d : PyDiGraph) (source : list Z) (vis : V) : V :=
  let fuel := S (size (dom (weights d))) in
  snd (foldl (dfs_visit fuel d) (∅, 0, vis) source).
End dfs.

End rx.

(** ** The interpreter's state

    [dict] objects that are shared between a caller and a callee live on a
    heap and are passed by reference ([PyRef]).  The built-in [id()]
    gives the identity of an object; it is the interpreter's choice and
    differs from run to run. *)

Abbreviation table := (gmap Z Z).
Abbreviation heap := (list table).

Record runtime := mkRuntime {
  id_int : Z → Z;
  id_node : Node_t → Z
}.

(** What a drained generator produced: the values it yielded and, when it
    ended by raising instead of returning, the exception. *)
Record drained := mkDrained {
  yielded : list pyobj;
  stop : option exn
}.

(** ** graph.py *)

(** [min(x :: rest, key=key)]: the first element whose key is least. *)
Fixpoint min_by {A} (key : A → Z) (best : A) (rest : list A) : A :=
  match rest with
  | [] => best
  | x :: rest' => min_by key (if key x <? key best then x else best) rest'
  end.

(** A [dict] keyed by Node objects, in insertion order.  Keys are found
    through [Node.__hash__] and [Node.__eq__]. *)
Fixpoint dict_get {V} (d : list (Node_t * V)) (k : Node_t) : option V :=
  match d with
  | [] => None
  | (k', v) :: rest => if Node.__eq__ k' k then Some v else dict_get rest k
  end.

Fixpoint dict_set {V} (d : list (Node_t * V)) (k : Node_t) (v : V) : list (Node_t * V) :=
  match d with
  | [] => [(k, v)]
  | (k', v') :: rest =>
      if Node.__eq__ k' k then (k', v) :: rest else (k', v') :: dict_set rest k v
  end.

(** [getattr(obj, attr)] for the data attributes of a Node; no other
    value here has them. *)
Definition getattr (obj : pyobj) (attr : string) : outcome pyobj :=
  match obj with
  | PyNode n =>
      if String.eqb attr "frame" then Return (PyFrame (frame n))
      else if String.eqb attr "_hatchet_nid" then Return (PyInt (_hatchet_nid n))
      else if String.eqb attr "_depth" then Return (PyInt (_depth n))
      else Raise AttributeError
  | _ => Raise AttributeError
  end.

(** [index[key].append(obj)] on a [defaultdict] of lists. *)
Fixpoint index_append (index : list (pyobj * list pyobj)) (key obj : pyobj)
  : list (pyobj * list pyobj) :=
  match index with
  | [] => [(key, [obj])]
  | (k, objs) :: rest =>
      if bool_decide (k = key) then (k, objs ++ [obj]) :: rest
      else (k, objs) :: index_append rest key obj
  end.

Fixpoint index_by_loop (attr : string) (objects : list pyobj)
    (index : list (pyobj * list pyobj)) : outcome (list (pyobj * list pyobj)) :=
  match objects with
  | [] => Return index
  | obj :: rest =>
      try key ← getattr obj attr;
      index_by_loop attr rest (index_append index key obj)
  end.

Definition index_by (attr : string) (objects : list pyobj)
  : outcome (list (pyobj * list pyobj)) :=
  index_by_loop attr objects [].

Module GraphDFSVistor.

Record t := mk {
  node_ids : list Z;
  order : pyobj;
  visited : nat
}.

(** [__init__(self, order)] *)
Definition __init__ (args : list pyobj) (kwargs : list (string * pyobj)) (h : heap)
  : outcome t * heap :=
  match bind_params [("order"%string, None)] args kwargs with
  | Raise e => (Raise e, h)
  | Return [order] =>
      match py_in order [PyStr "pre"; PyStr "post"] with
      | Raise e => (Raise e, h)
      | Return false => (Raise ValueError, h)
      | Return true => (Return (mk [] order (length h)), h ++ [∅])
      end
  | Return _ => (Raise TypeError, h)
  end.

(** The two callbacks; the state is the visitor and the heap that holds
    its [visited] table.  [order] is "pre" or "post" once [__init__] has
    returned, so [==] on it is equality of strings. *)
Definition discover_vertex (rt : runtime) (st : t * heap) (vertex time : Z) : t * heap :=
  let '(self, h) := st in
  let self1 :=
    if bool_decide (order self = PyStr "pre")
    then mk (node_ids self ++ [vertex]) (order self) (visited self)
    else self in
  let key := id_int rt vertex in
  let tbl := default ∅ (h !! visited self) in
  let tbl1 :=
    match tbl !! key with
    | Some n => <[key := n + 1]> tbl
    | None => <[key := 1]> tbl
    end in
  (self1, <[visited self := tbl1]> h).

Definition finish_vertex (st : t * heap) (vertex time : Z) : t * heap :=
  let '(self, h) := st in
  if bool_decide (order self = PyStr "post")
  then (mk (node_ids self ++ [vertex]) (order self) (visited self), h)
  else st.

End GraphDFSVistor.

Module Graph.

Record t := mk {
  dag : rx.PyDiGraph;
  roots : gset Z
}.

(** [Graph()] *)
Definition __init__ : t := mk (rx.new true false) ∅.

(** The names a Graph object answers to: the two instance attributes and
    the methods of the class. *)
Definition attributes : list string :=
  ["dag"; "roots"; "add_node"; "add_parent"; "add_child"; "add_edge";
   "get_parents"; "get_children"; "traverse"; "is_tree"; "find_merges";
   "update_roots"; "merge_nodes"; "normalize"; "copy"; "union"]%string.

Definition lookup_attribute (name : string) : outcome unit :=
  if bool_decide (name ∈ attributes) then Return () else Raise AttributeError.

(** The test every method starts with: an [int] is the index itself, a
    Node stands for its [_hatchet_nid], anything else is a TypeError. *)
Definition index_of (x : pyobj) : outcome Z :=
  match x with
  | PyInt z => Return z
  | PyNode n => Return (_hatchet_nid n)
  | _ => Raise TypeError
  end.

(** *** The mutation operations

    Each hands the library the arguments the source hands it:
    [self.dag.add_node()], [self.dag.add_parent(child_id)],
    [self.dag.add_parent(parent_id)] in [add_child], and
    [self.dag.add_edge(parent_id, child_id)]. *)

Definition add_node (self : t) (frame : Frame) : outcome Node_t * t :=
  match rx.add_node (dag self) [] with
  | (Raise e, d1) => (Raise e, mk d1 (roots self))
  | (Return node_id, d1) =>
      match Node.__init__ [PyFrame frame; PyInt node_id] [] with
      | Raise e => (Raise e, mk d1 (roots self))
      | Return node_obj =>
          match rx.setitem d1 node_id (PyNode node_obj) with
          | (Raise e, d2) => (Raise e, mk d2 (roots self))
          | (Return _, d2) => (Return node_obj, mk d2 ({[node_id]} ∪ roots self))
          end
      end
  end.

Definition add_parent (self : t) (child : pyobj) (parent_frame : Frame)
  : outcome Node_t * t :=
  match index_of child with
  | Raise e => (Raise e, self)
  | Return child_id =>
      match rx.add_parent (dag self) [PyInt child_id] with
      | (Raise e, d1) => (Raise e, mk d1 (roots self))
      | (Return parent_id, d1) =>
          match Node.__init__ [PyFrame parent_frame] [("hnid"%string, PyInt parent_id)] with
          | Raise e => (Raise e, mk d1 (roots self))
          | Return parent_node =>
              match rx.setitem d1 parent_id (PyNode parent_node) with
              | (Raise e, d2) => (Raise e, mk d2 (roots self))
              | (Return _, d2) =>
                  let roots1 := {[parent_id]} ∪ roots self in
                  let roots2 :=
                    if bool_decide (child_id ∈ roots1)
                    then roots1 ∖ {[child_id]} else roots1 in
                  (Return parent_node, mk d2 roots2)
              end
          end
      end
  end.

Definition add_child (self : t) (parent : pyobj) (child_frame : Frame)
  : outcome Node_t * t :=
  match index_of parent with
  | Raise e => (Raise e, self)
  | Return parent_id =>
      match rx.add_parent (dag self) [PyInt parent_id] with
      | (Raise e, d1) => (Raise e, mk d1 (roots self))
      | (Return child_id, d1) =>
          match Node.__init__ [PyFrame child_frame] [("hnid"%string, PyInt child_id)] with
          | Raise e => (Raise e, mk d1 (roots self))
          | Return child_node =>
              match rx.setitem d1 child_id (PyNode child_node) with
              | (Raise e, d2) => (Raise e, mk d2 (roots self))
              | (Return _, d2) => (Return child_node, mk d2 (roots self))
              end
          end
      end
  end.

Definition add_edge (self : t) (parent child : pyobj) : outcome unit * t :=
  match index_of parent with
  | Raise e => (Raise e, self)
  | Return parent_id =>
      match index_of child with
      | Raise e => (Raise e, self)
      | Return child_id =>
          match rx.add_edge (dag self) [PyInt parent_id; PyInt child_id] with
          | (Raise e, d1) => (Raise e, mk d1 (roots self))
          | (Return _, d1) =>
              (Return (),
               mk d1 (if bool_decide (child_id ∈ roots self)
                      then roots self ∖ {[child_id]} else roots self))
          end
      end
  end.

Fixpoint payloads (d : rx.PyDiGraph) (ids : list Z) : outcome (list pyobj) :=
  match ids with
  | [] => Return []
  | i :: rest =>
      try w ← rx.getitem d i;
      try ws ← payloads d rest;
      Return (w :: ws)
  end.

Definition get_parents (self : t) (child : pyobj) : outcome (list pyobj) :=
  try child_id ← index_of child;
  try in_edges ← rx.in_edges (dag self) child_id;
  payloads (dag self) (fst <$> in_edges).

Definition get_children (self : t) (parent : pyobj) : outcome (list pyobj) :=
  try parent_id ← index_of parent;
  try out_edges ← rx.out_edges (dag self) parent_id;
  payloads (dag self) (snd <$> out_edges).

(** *** traverse *)

(** [get_attrs(node)] of [traverse]. *)
Definition get_attrs (attrs node : pyobj) : outcome pyobj :=
  match attrs with
  | PyNone => Return node
  | _ =>
      try f ← getattr node "frame";
      match f, attrs with
      | PyFrame f, PyNames names => Return (PyNames (Frame_values f names))
      | _, _ => Raise TypeError
      end
  end.

(** The final loop of [traverse]: one value is yielded per recorded
    node id, until one of them raises. *)
Fixpoint yield_nodes (self : t) (attrs : pyobj) (node_ids : list Z) : drained :=
  match node_ids with
  | [] => mkDrained [] None
  | node_id :: rest =>
      match (try w ← rx.getitem (dag self) node_id; get_attrs attrs w) with
      | Raise e => mkDrained [] (Some e)
      | Return v =>
          let r := yield_nodes self attrs rest in
          mkDrained (v :: yielded r) (stop r)
      end
  end.

(** The body of [traverse] after the visitor is built (from
    [roots = list(self.roots)] on).  The assignment
    [visited = dfs_visitor.visited] binds the local name [visited] to the
    visitor's table; no object is written. *)
Definition traverse_search (rt : runtime) (self : t) (dfs_visitor : GraphDFSVistor.t)
    (attrs visited : pyobj) (h : heap) : drained * heap :=
  let roots := merge_sort Z.le (elements (roots self)) in
  let '(dfs_visitor, h1) :=
    rx.digraph_dfs_search (GraphDFSVistor.discover_vertex rt)
      GraphDFSVistor.finish_vertex (dag self) roots (dfs_visitor, h) in
  let visited :=
    if bool_decide (visited ≠ PyNone)
    then PyRef (GraphDFSVistor.visited dfs_visitor) else visited in
  (yield_nodes self attrs (GraphDFSVistor.node_ids dfs_visitor), h1).

(** [traverse(self, order="pre", attrs=None, visited=None)], drained.
    Nothing of the body runs before the first value is asked for. *)
Definition traverse (rt : runtime) (self : t) (order attrs visited : pyobj) (h : heap)
  : drained * heap :=
  match GraphDFSVistor.__init__ [order; attrs] [] h with
  | (Raise e, h1) => (mkDrained [] (Some e), h1)
  | (Return dfs_visitor, h1) => traverse_search rt self dfs_visitor attrs visited h1
  end.

(** [list(gen)] *)
Definition py_list (r : drained) : outcome (list pyobj) :=
  match stop r with
  | Some e => Raise e
  | None => Return (yielded r)
  end.

Definition is_tree (rt : runtime) (self : t) (h : heap) : outcome bool * heap :=
  if bool_decide (1 < size (roots self))%nat then (Return false, h)
  else
    let visited := length h in
    let h1 := h ++ [∅] in
    let '(gen, h2) := traverse rt self (PyStr "pre") PyNone (PyRef visited) h1 in
    match py_list gen with
    | Raise e => (Raise e, h2)
    | Return _ =>
        (Return (forallb (λ kv, snd kv =? 1)
                   (map_to_list (default ∅ (h2 !! visited)))), h2)
    end.

(** *** find_merges *)

(** The three variables that the closure [_find_child_merges] and the
    loop of [find_merges] share. *)
Record merge_state := mkMergeState {
  merges : list (Node_t * Node_t);
  inverted_merges : list (Node_t * list Node_t);
  processed : list pyobj
}.

(** Only a Node has a [frame], so the members of a group of
    [index_by("frame", ...)] are Nodes. *)
Definition as_nodes (objs : list pyobj) : list Node_t :=
  omap (λ o, match o with PyNode n => Some n | _ => None end) objs.

(** [for child in children: ...] *)
Fixpoint record_merges (rt : runtime) (min_id : Node_t) (children : list Node_t)
    (st : merge_state) : merge_state :=
  match children with
  | [] => st
  | child :: rest =>
      let prev_min := default min_id (dict_get (merges st) child) in
      let curr_min := min_by (id_node rt) min_id [prev_min] in
      let merges1 := dict_set (merges st) child curr_min in
      let folded := default [] (dict_get (inverted_merges st) curr_min) in
      let inverted1 := dict_set (inverted_merges st) curr_min (folded ++ [child]) in
      record_merges rt min_id rest (mkMergeState merges1 inverted1 (processed st))
  end.

(** [for frame, children in index.items(): if len(children) > 1: ...] *)
Fixpoint merge_groups (rt : runtime) (index : list (pyobj * list pyobj))
    (st : merge_state) : merge_state :=
  match index with
  | [] => st
  | (_, children) :: rest =>
      let st1 :=
        if bool_decide (1 < length children)%nat then
          match as_nodes children with
          | c :: cs => record_merges rt (min_by (id_node rt) c cs) (c :: cs) st
          | [] => st
          end
        else st in
      merge_groups rt rest st1
  end.

Definition _find_child_merges (rt : runtime) (node_list : list pyobj) (st : merge_state)
  : outcome merge_state :=
  try index ← index_by "frame" node_list;
  Return (merge_groups rt index st).

(** [node in merges]: the keys with the hash of [node] are compared with
    it.  A Node hashes to its id and an [int] to itself; the hash of any
    other value is taken to meet no key. *)
Definition dict_contains {V} (d : list (Node_t * V)) (k : pyobj) : outcome bool :=
  match k with
  | PyNode n => Return (bool_decide (is_Some (dict_get d n)))
  | PyInt z =>
      if existsb (λ kv, _hatchet_nid (fst kv) =? z) d
      then Raise AttributeError else Return false
  | _ => Return false
  end.

(** [for node_to_merge in ...: nodes.extend(self.get_children(node_to_merge))] *)
Fixpoint collect_children (self : t) (to_merge : list Node_t) : outcome (list pyobj) :=
  match to_merge with
  | [] => Return []
  | n :: rest =>
      try cs ← get_children self (PyNode n);
      try more ← collect_children self rest;
      Return (cs ++ more)
  end.

(** One turn of [for node in self.traverse(): ...]. *)
Definition find_merges_step (rt : runtime) (self : t) (st : merge_state) (node : pyobj)
  : outcome merge_state :=
  try seen ← py_in node (processed st);
  if seen then Return st
  else
    try merged ← dict_contains (merges st) node;
    if merged then
      match node with
      | PyNode n =>
          let new_node := default n (dict_get (merges st) n) in
          let inverted1 :=
            match dict_get (inverted_merges st) new_node with
            | Some _ => inverted_merges st
            | None => dict_set (inverted_merges st) new_node []
            end in
          let to_merge := default [] (dict_get inverted1 new_node) in
          try nodes ← collect_children self to_merge;
          _find_child_merges rt nodes
            (mkMergeState (merges st) inverted1 (processed st ++ (PyNode <$> to_merge)))
      | _ => Raise KeyError
      end
    else
      try nodes ← get_children self node;
      _find_child_merges rt nodes
        (mkMergeState (merges st) (inverted_merges st) (processed st ++ [node])).

Fixpoint find_merges_loop (rt : runtime) (self : t) (items : list pyobj) (st : merge_state)
  : outcome merge_state :=
  match items with
  | [] => Return st
  | node :: rest =>
      try st1 ← find_merges_step rt self st node;
      find_merges_loop rt self rest st1
  end.

(** [self.roots] is a set of integers; the order in which a set is
    iterated is the interpreter's, [elements] stands for it. *)
Definition find_merges (rt : runtime) (self : t) (h : heap)
  : outcome (list (Node_t * Node_t)) * heap :=
  match _find_child_merges rt (PyInt <$> elements (roots self)) (mkMergeState [] [] []) with
  | Raise e => (Raise e, h)
  | Return st1 =>
      let '(gen, h1) := traverse rt self (PyStr "pre") PyNone PyNone h in
      match find_merges_loop rt self (yielded gen) st1 with
      | Raise e => (Raise e, h1)
      | Return st2 =>
          match stop gen with
          | Some e => (Raise e, h1)
          | None => (Return (merges st2), h1)
          end
      end
  end.

(** *** update_roots, merge_nodes, normalize *)

Definition update_roots (self : t) : t :=
  mk (dag self)
     (list_to_set (filter (λ n, rx.in_degree (dag self) n = 0%nat)
                     (rx.node_indices (dag self)))).

Fixpoint merge_each (d : rx.PyDiGraph) (items : list (Node_t * Node_t))
  : outcome unit * rx.PyDiGraph :=
  match items with
  | [] => (Return (), d)
  | (old, new) :: rest =>
      match rx.merge_nodes d (_hatchet_nid old) (_hatchet_nid new) with
      | (Raise e, d1) => (Raise e, d1)
      | (Return _, d1) => merge_each d1 rest
      end
  end.

Definition merge_nodes (self : t) (merges : list (Node_t * Node_t)) : outcome unit * t :=
  match merge_each (dag self) merges with
  | (Raise e, d1) => (Raise e, mk d1 (roots self))
  | (Return _, d1) => (Return (), update_roots (mk d1 (roots self)))
  end.

Definition normalize (rt : runtime) (self : t) (h : heap)
  : outcome (list (Node_t * Node_t)) * (t * heap) :=
  match find_merges rt self h with
  | (Raise e, h1) => (Raise e, (self, h1))
  | (Return merges, h1) =>
      match merge_nodes self merges with
      | (Raise e, self1) => (Raise e, (self1, h1))
      | (Return _, self1) => (Return merges, (self1, h1))
      end
  end.

(** *** copy *)

(** [old_to_new[r]] with an integer [r] on a dict keyed by Nodes: a key
    with the hash of [r] is compared with it by [Node.__eq__], which
    raises; with no such key the lookup is a KeyError. *)
Definition getitem_int (d : list (Node_t * Node_t)) (r : Z) : outcome Node_t :=
  if existsb (λ kv, hash (fst kv) =? hash_int r) d
  then Raise AttributeError else Raise KeyError.

Fixpoint translate (d : list (Node_t * Node_t)) (rs : list Z) : outcome (list Node_t) :=
  match rs with
  | [] => Return []
  | r :: rest =>
      try n ← getitem_int d r;
      try ns ← translate d rest;
      Return (n :: ns)
  end.

(** The loop over [zip(self.dag.node_indices(), new_dag.node_indices())].
    Both graphs hold the same payloads, so [old_node] is a Node whenever
    [new_dag[new_idx].copy()] was one. *)
Fixpoint copy_nodes (self : t) (new_dag : rx.PyDiGraph) (pairs : list (Z * Z))
    (old_to_new : list (Node_t * Node_t))
  : outcome rx.PyDiGraph * list (Node_t * Node_t) :=
  match pairs with
  | [] => (Return new_dag, old_to_new)
  | (old_idx, new_idx) :: rest =>
      match rx.getitem (dag self) old_idx, rx.getitem new_dag new_idx with
      | Raise e, _ | Return _, Raise e => (Raise e, old_to_new)
      | Return old_node, Return (PyNode n) =>
          match Node.copy n with
          | Raise e => (Raise e, old_to_new)
          | Return new_node =>
              match rx.setitem new_dag new_idx (PyNode new_node), old_node with
              | (Raise e, _), _ => (Raise e, old_to_new)
              | (Return _, new_dag1), PyNode o =>
                  copy_nodes self new_dag1 rest (dict_set old_to_new o new_node)
              | (Return _, _), _ => (Raise TypeError, old_to_new)
              end
          end
      | Return _, Return _ => (Raise AttributeError, old_to_new)
      end
  end.

(** [copy(self, old_to_new=None)]; [old_to_new] is the caller's dict
    (empty when none is passed), returned as the call leaves it. *)
Definition copy (self : t) (old_to_new : list (Node_t * Node_t))
  : outcome t * list (Node_t * Node_t) :=
  let new_dag := rx.copy (dag self) in
  match copy_nodes self new_dag
          (zip (rx.node_indices (dag self)) (rx.node_indices new_dag)) old_to_new with
  | (Raise e, otn) => (Raise e, otn)
  | (Return new_dag1, otn) =>
      let graph := mk new_dag1 (roots __init__) in
      match translate otn (elements (roots self)) with
      | Raise e => (Raise e, otn)
      | Return rs =>
          let graph := mk (dag graph) (list_to_set (_hatchet_nid <$> rs)) in
          match lookup_attribute "enumerate_traverse" with
          | Raise e => (Raise e, otn)
          | Return _ => (Return graph, otn)
          end
      end
  end.

End Graph.

(** ** Notions the properties are stated with *)

(** [reachable es u v]: a walk along the edges [es] leads from [u] to [v]. *)
Inductive reachable (es : list (Z * Z)) : Z → Z → Prop :=
| reachable_refl u : reachable es u u
| reachable_step u v w : reachable es u v → (v, w) ∈ es → reachable es u w.

(** The four mutation operations of a Graph, and a graph built from
    [Graph()] by a sequence of them (a call that raises leaves the graph
    as the raise left it). *)
Inductive mutation :=
| AddNode (frame : Frame)
| AddParent (child : pyobj) (parent_frame : Frame)
| AddChild (parent : pyobj) (child_frame : Frame)
| AddEdge (parent child : pyobj).

Definition apply (self : Graph.t) (m : mutation) : Graph.t :=
  match m with
  | AddNode f => snd (Graph.add_node self f)
  | AddParent c f => snd (Graph.add_parent self c f)
  | AddChild p f => snd (Graph.add_child self p f)
  | AddEdge p c => snd (Graph.add_edge self p c)
  end.

Definition run (ms : list mutation) : Graph.t := foldl apply Graph.__init__ ms.

Definition vertices (self : Graph.t) : gset Z := dom (rx.weights (Graph.dag self)).

(** The invariant of [roots]: a vertex is a root exactly when no edge
    enters it. *)
Definition roots_invariant (self : Graph.t) : Prop :=
  ∀ v, v ∈ vertices self →
    (v ∈ Graph.roots self ↔ rx.in_degree (Graph.dag self) v = 0%nat).

(** The heads of the edges [es]. *)
Definition heads (es : list (Z * Z)) : gset Z := list_to_set (snd <$> es).

Definition frame_main : Frame := [("name", "main")]%string.
Definition frame_foo : Frame := [("name", "foo")]%string.

(** A run of the interpreter in which objects are laid out in the order
    of their ids, and one in which they are laid out in the reverse order. *)
Definition runtime_up : runtime := mkRuntime (λ z, z) (λ n, 4096 + 64 * _hatchet_nid n).
Definition runtime_down : runtime := mkRuntime (λ z, z) (λ n, 4096 - 64 * _hatchet_nid n).

Definition no_merges : Graph.merge_state := Graph.mkMergeState [] [] [].

Definition foo1 : Node_t := mkNode frame_foo 1 (-1).
Definition foo2 : Node_t := mkNode frame_foo 2 (-1).

(** Two graphs filled in through the library itself, with the arguments
    it declares: [g.dag.add_node(Node(f, 0)); g.roots.add(0)], and after
    it [g.dag.add_parent(0, Node(f2, 1), None); g.roots = {1}]. *)
Definition one_vertex (f : Frame) : Graph.t :=
  Graph.mk (snd (rx.add_node (rx.new true false) [PyNode (mkNode f 0 (-1))])) {[0]}.

Definition two_vertices (f f2 : Frame) : Graph.t :=
  Graph.mk (snd (rx.add_parent (Graph.dag (one_vertex f))
                   [PyInt 0; PyNode (mkNode f2 1 (-1)); PyNone])) {[1]}.

(** The indices the library accepts. *)
Definition in_range (z : Z) : Prop := 0 ≤ z < 2 ^ 64.


(** The Nodes among a list of values. *)
Definition is_node (o : pyobj) : bool :=
  match o with PyNode _ => true | _ => false end.

(** * Properties *)

(** ** Node *)

Example Node_positional f i :
  Node.__init__ [PyFrame f; PyInt i] [] = Return (mkNode f i (-1)).
Proof. reflexivity. Qed.

Example Node_keyword f i :
  Node.__init__ [PyFrame f] [("hnid"%string, PyInt i)] = Return (mkNode f i (-1)).
Proof. reflexivity. Qed.

(** [Node.copy] passes the keyword [frame_obj], which [__init__] does not
    have. *)
Lemma Node_copy_raises n : Node.copy n = Raise TypeError.
Proof. reflexivity. Qed.

(** The built-in [hash] of a Node is its id when the id fits the machine
    word and is not -1. *)
Lemma hash_of_word (h : Z) : - 2 ^ 63 ≤ h < 2 ^ 63 → h ≠ -1 → hash_of h = h.
Proof.
  intros Hword Hh. unfold hash_of.
  rewrite (bool_decide_eq_true_2 _ Hword). by rewrite bool_decide_eq_false_2.
Qed.

(** C10, as stated, fails at the id -1, which is the id of a Node made
    without one ([Node(frame)]): its hash is -2, not its id. *)
Lemma C10_counterexample :
  Node.__init__ [PyFrame frame_main] [] = Return (mkNode frame_main (-1) (-1)) ∧
  hash (mkNode frame_main (-1) (-1)) = -2 ∧
  hash (mkNode frame_main (-1) (-1)) ≠ _hatchet_nid (mkNode frame_main (-1) (-1)).
Proof. split_and!; [reflexivity|reflexivity|]. vm_compute. discriminate. Qed.

(** C10, as amended: equality, hash and order of Nodes are decided by
    their ids, whatever the Frames (and depths) are: [a == b] iff the ids
    are equal, [a < b] iff the id of [a] is below the id of [b], and
    [__hash__] returns the id, so that [hash(a)] is the id when the id
    fits the signed machine word and is not -1, and is -2 when the id is
    -1. *)
Theorem C10_node_compares_by_id (fa fb : Frame) (ia ib da db : Z) :
  let a := mkNode fa ia da in
  let b := mkNode fb ib db in
  (Node.__eq__ a b = true ↔ ia = ib) ∧
  py_eq (PyNode a) (PyNode b) = Return (Node.__eq__ a b) ∧
  Node.__hash__ a = ia ∧
  hash a = hash_of ia ∧
  (- 2 ^ 63 ≤ ia < 2 ^ 63 → ia ≠ -1 → hash a = ia) ∧
  (ia = -1 → hash a = -2) ∧
  (Node.__lt__ a b = true ↔ ia < ib) ∧
  (Node.__gt__ a b = true ↔ ia > ib).
Proof.
  cbn zeta. unfold hash, Node.__eq__, Node.__hash__, Node.__lt__, Node.__gt__. cbn.
  rewrite Z.gtb_ltb, Z.eqb_eq, !Z.ltb_lt.
  split_and!; try done; try lia.
  - apply hash_of_word.
  - by intros ->.
Qed.

Lemma C10_node_compares_by_id_witness :
  hash (mkNode frame_main 7 (-1)) = 7 ∧
  (Node.__eq__ (mkNode frame_main 7 (-1)) (mkNode frame_foo 7 0) = true ↔ 7 = 7).
Proof.
  destruct (C10_node_compares_by_id frame_main frame_foo 7 7 (-1) 0)
    as (Heq & _ & _ & _ & Hhash & _).
  split; [apply Hhash; lia|exact Heq].
Defined.

(** ** Traversal *)

(** [traverse] builds its visitor with two arguments, [order] and [attrs];
    [GraphDFSVistor.__init__] takes one.  The call raises before anything
    else happens: nothing is yielded and no object is written. *)
Lemma visitor_two_arguments order attrs h :
  GraphDFSVistor.__init__ [order; attrs] [] h = (Raise TypeError, h).
Proof. reflexivity. Qed.

Lemma traverse_raises rt self order attrs visited h :
  Graph.traverse rt self order attrs visited h = (mkDrained [] (Some TypeError), h).
Proof. reflexivity. Qed.

(** Called with the one argument it takes, the constructor does reject an
    unknown order with ValueError, and accepts "pre" and "post". *)
Lemma visitor_unknown_order (s : string) h :
  s ≠ "pre"%string → s ≠ "post"%string →
  GraphDFSVistor.__init__ [PyStr s] [] h = (Raise ValueError, h).
Proof.
  intros Hpre Hpost. unfold GraphDFSVistor.__init__. cbn.
  rewrite !bool_decide_eq_false_2 by congruence. reflexivity.
Qed.

Lemma visitor_known_order (s : string) h :
  s = "pre"%string ∨ s = "post"%string →
  GraphDFSVistor.__init__ [PyStr s] [] h =
    (Return (GraphDFSVistor.mk [] (PyStr s) (length h)), h ++ [∅]).
Proof. intros [-> | ->]; reflexivity. Qed.

(** C9 (the code departs from it): whatever [order] is, unknown or not,
    draining [traverse] yields nothing and ends in the TypeError of the
    visitor's constructor call; the ValueError of the order check is never
    reached. *)
Theorem C9_traverse_raises_TypeError rt self order attrs visited h :
  let gen := fst (Graph.traverse rt self order attrs visited h) in
  yielded gen = [] ∧ stop gen = Some TypeError ∧ stop gen ≠ Some ValueError.
Proof. cbn. repeat split; congruence. Qed.

(** C8 (the code departs from it): after [traverse] is drained, the table
    the caller passed as [visited] is what it was before the call, and the
    heap holds no other table: no visit count can be obtained. *)
Theorem C8_visited_table_not_filled rt self order attrs (r : nat) h :
  let '(gen, h1) := Graph.traverse rt self order attrs (PyRef r) h in
  h1 !! r = h !! r ∧ length h1 = length h ∧ yielded gen = [].
Proof. cbn. auto. Qed.

(** Past the constructor the caller's table would fare no better: the
    search counts in the visitor's own table, and [traverse] then only
    rebinds its local name.  First, what a search preserves. *)
Section dfs_invariant.
Context {V : Type} (discover finish : V → Z → Z → V) (P : V → Prop).
Hypothesis discover_keeps : ∀ vis v time, P vis → P (discover vis v time).
Hypothesis finish_keeps : ∀ vis v time, P vis → P (finish vis v time).

Lemma dfs_visit_keeps fuel d st v :
  P (snd st) → P (snd (rx.dfs_visit discover finish fuel d st v)).
Proof.
  revert st v. induction fuel as [|k IH]; intros [[seen time] vis] v Hvis; [done|].
  cbn [rx.dfs_visit]. case_bool_decide; [done|].
  set (st1 := ({[v]} ∪ seen, time + 1, discover vis v time)).
  assert (Hfold : ∀ vs st, P (snd st) →
            P (snd (foldl (rx.dfs_visit discover finish k d) st vs))).
  { induction vs as [|c vs IHvs]; intros st Hst; [done|]. cbn. apply IHvs, IH, Hst. }
  specialize (Hfold (snd <$> reverse (rx.edges_from d v)) st1).
  assert (Hst1 : P (snd st1)) by apply discover_keeps, Hvis.
  specialize (Hfold Hst1).
  destruct (foldl (rx.dfs_visit discover finish k d) st1 (snd <$> reverse (rx.edges_from d v)))
    as [[seen2 time2] vis2].
  apply finish_keeps, Hfold.
Qed.

Lemma digraph_dfs_search_keeps d source vis :
  P vis → P (rx.digraph_dfs_search discover finish d source vis).
Proof.
  intros Hvis. unfold rx.digraph_dfs_search.
  generalize (S (size (dom (rx.weights d)))) as fuel. intros fuel.
  assert (Hfold : ∀ vs (st : rx.dfs_state), P (snd st) →
            P (snd (foldl (rx.dfs_visit discover finish fuel d) st vs))).
  { induction vs as [|c vs IHvs]; intros st Hst; [done|].
    cbn. apply IHvs, dfs_visit_keeps, Hst. }
  apply Hfold. exact Hvis.
Qed.
End dfs_invariant.

Lemma traverse_search_keeps_callers_table rt self vis attrs visited h (r : nat) :
  r ≠ GraphDFSVistor.visited vis →
  snd (Graph.traverse_search rt self vis attrs visited h) !! r = h !! r.
Proof.
  intros Hr. unfold Graph.traverse_search.
  pose (P := λ st : GraphDFSVistor.t * heap,
          GraphDFSVistor.visited (fst st) = GraphDFSVistor.visited vis ∧
          snd st !! r = h !! r).
  assert (HP : P (rx.digraph_dfs_search (GraphDFSVistor.discover_vertex rt)
                    GraphDFSVistor.finish_vertex (Graph.dag self)
                    (merge_sort Z.le (elements (Graph.roots self))) (vis, h))).
  { apply digraph_dfs_search_keeps; [| |done].
    - intros [v0 h0] v time [Hv Hh]. unfold P, GraphDFSVistor.discover_vertex. cbn in *.
      split; [by case_bool_decide|].
      rewrite list_lookup_insert_ne by congruence. exact Hh.
    - intros [v0 h0] v time [Hv Hh]. unfold P, GraphDFSVistor.finish_vertex.
      by case_bool_decide. }
  destruct (rx.digraph_dfs_search _ _ _ _ _) as [vis1 h1]. apply HP.
Qed.

(** C3 (the code departs from it): [is_tree] answers False when there is
    more than one root and otherwise ends in the TypeError of [traverse];
    it never answers True, and with no root at all it does not answer
    False. *)
Theorem C3_is_tree_never_true rt self h :
  fst (Graph.is_tree rt self h) =
    (if bool_decide (1 < size (Graph.roots self))%nat
     then Return false else Raise TypeError) ∧
  fst (Graph.is_tree rt self h) ≠ Return true ∧
  fst (Graph.is_tree rt Graph.__init__ h) = Raise TypeError.
Proof.
  unfold Graph.is_tree. split_and!.
  - by case_bool_decide.
  - by case_bool_decide.
  - reflexivity.
Qed.

(** ** Normalisation *)

(** [index_by("frame", ...)] on a list that starts with an integer: an
    [int] has no [frame]. *)
Lemma index_by_int z rest :
  index_by "frame" (PyInt z :: rest) = Raise AttributeError.
Proof. reflexivity. Qed.

Lemma find_merges_raises rt self h :
  Graph.find_merges rt self h =
    (Raise (if bool_decide (Graph.roots self = ∅) then TypeError else AttributeError), h).
Proof.
  unfold Graph.find_merges, Graph._find_child_merges.
  destruct (elements (Graph.roots self)) as [|z zs] eqn:Hel.
  - apply elements_empty_inv, leibniz_equiv in Hel.
    rewrite bool_decide_eq_true_2 by done. reflexivity.
  - rewrite bool_decide_eq_false_2; [reflexivity|].
    intros Hempty. rewrite Hempty, elements_empty in Hel. discriminate.
Qed.

(** C4 (the code departs from it): [normalize] never returns a mapping.
    [find_merges] hands [self.roots], a set of integers, to
    [index_by("frame", ...)], an AttributeError when there is a root; with
    no root it ends in the TypeError of [traverse].  The graph is left as
    it was. *)
Theorem C4_normalize_raises rt self h :
  Graph.normalize rt self h =
    (Raise (if bool_decide (Graph.roots self = ∅) then TypeError else AttributeError),
     (self, h)).
Proof. unfold Graph.normalize. rewrite find_merges_raises. reflexivity. Qed.

(** ** copy *)

Lemma copy_nodes_raises self new_dag pair pairs old_to_new :
  ∃ e, Graph.copy_nodes self new_dag (pair :: pairs) old_to_new = (Raise e, old_to_new).
Proof.
  destruct pair as [old_idx new_idx]. cbn [Graph.copy_nodes].
  destruct (rx.getitem (Graph.dag self) old_idx) as [old_node|e]; [|by eexists].
  destruct (rx.getitem new_dag new_idx) as [[]|e]; by eexists.
Qed.

(** C7 (the code departs from it): [copy] never returns a graph.  With a
    vertex in the graph, [Node.copy] raises TypeError; with none, the call
    of [enumerate_traverse], which Graph does not have, raises
    AttributeError. *)
Theorem C7_copy_raises self old_to_new :
  (∃ e, Graph.copy self old_to_new = (Raise e, old_to_new)) ∧
  Graph.copy Graph.__init__ [] = (Raise AttributeError, []) ∧
  Graph.copy (one_vertex frame_main) [] = (Raise TypeError, []).
Proof.
  split; [|split; vm_compute; reflexivity].
  unfold Graph.copy.
  destruct (zip _ _) as [|pair pairs].
  - cbn [Graph.copy_nodes].
    destruct (Graph.translate _ _) as [rs|e]; by eexists.
  - destruct (copy_nodes_raises self (rx.copy (Graph.dag self)) pair pairs old_to_new)
      as [e ->].
    by eexists.
Qed.

(** ** Mutation

    Each of the four mutation operations calls the library with fewer
    arguments than the library's method declares: [dag.add_node()] without
    the payload, [dag.add_parent(id)] without the payload and the edge
    data, [dag.add_edge(parent_id, child_id)] without the edge data.  The
    library refuses the call before it stores anything, so every mutation
    ends in a TypeError and leaves the graph as it was. *)

Lemma add_node_no_argument d : rx.add_node d [] = (Raise TypeError, d).
Proof. reflexivity. Qed.

Lemma add_parent_one_argument d x : rx.add_parent d [x] = (Raise TypeError, d).
Proof. by destruct x. Qed.

Lemma add_edge_two_arguments d x y : rx.add_edge d [x; y] = (Raise TypeError, d).
Proof. destruct x; try done; by destruct y. Qed.

Lemma index_of_cases x : Graph.index_of x = Raise TypeError ∨ ∃ z, Graph.index_of x = Return z.
Proof. destruct x; cbn; eauto. Qed.

Lemma add_node_raises self f : Graph.add_node self f = (Raise TypeError, self).
Proof. unfold Graph.add_node. rewrite add_node_no_argument. by destruct self. Qed.

Lemma add_parent_raises self child f :
  Graph.add_parent self child f = (Raise TypeError, self).
Proof.
  unfold Graph.add_parent.
  destruct (index_of_cases child) as [-> | [z ->]]; [done|].
  rewrite add_parent_one_argument. by destruct self.
Qed.

Lemma add_child_raises self parent f :
  Graph.add_child self parent f = (Raise TypeError, self).
Proof.
  unfold Graph.add_child.
  destruct (index_of_cases parent) as [-> | [z ->]]; [done|].
  rewrite add_parent_one_argument. by destruct self.
Qed.

Lemma add_edge_raises self parent child :
  Graph.add_edge self parent child = (Raise TypeError, self).
Proof.
  unfold Graph.add_edge.
  destruct (index_of_cases parent) as [-> | [p ->]]; [done|].
  destruct (index_of_cases child) as [-> | [c ->]]; [done|].
  rewrite add_edge_two_arguments. by destruct self.
Qed.

Lemma apply_unchanged self m : apply self m = self.
Proof.
  destruct m; cbn [apply].
  - by rewrite add_node_raises.
  - by rewrite add_parent_raises.
  - by rewrite add_child_raises.
  - by rewrite add_edge_raises.
Qed.

Lemma foldl_apply_unchanged self ms : foldl apply self ms = self.
Proof.
  revert self. induction ms as [|m ms IH]; intros self; [done|].
  cbn [foldl]. by rewrite apply_unchanged.
Qed.

(** The two graphs filled in through the library. *)
Lemma one_vertex_eq f :
  one_vertex f =
    Graph.mk (rx.mk true false {[0 := PyNode (mkNode f 0 (-1))]} [] [] 1) {[0]}.
Proof. unfold one_vertex. cbn. by rewrite insert_empty. Qed.

Lemma two_vertices_eq f f2 :
  two_vertices f f2 =
    Graph.mk (rx.mk true false
                (<[1 := PyNode (mkNode f2 1 (-1))]> {[0 := PyNode (mkNode f 0 (-1))]})
                [(1, 0)] [] 2) {[1]}.
Proof.
  unfold two_vertices. rewrite one_vertex_eq. unfold rx.add_parent, rx.usize.
  rewrite bool_decide_eq_true_2 by lia. cbn.
  unfold rx.has_node. cbn. rewrite bool_decide_eq_true_2 by set_solver. done.
Qed.

Lemma roots_invariant_init : roots_invariant Graph.__init__.
Proof. intros v Hv. unfold vertices in Hv. cbn in Hv. set_solver. Qed.

Lemma roots_invariant_two_vertices f f2 : roots_invariant (two_vertices f f2).
Proof.
  rewrite two_vertices_eq. intros v. unfold vertices, rx.in_degree, rx.edges_into. cbn.
  rewrite dom_insert_L, dom_singleton_L.
  intros [->%elem_of_singleton | ->%elem_of_singleton]%elem_of_union.
  - split; [reflexivity|set_solver].
  - split; [set_solver|discriminate].
Qed.

(** C1: the invariant of [roots] holds after every sequence of mutations:
    on the graph built from [Graph()], and from any graph on which it
    holds.  (Each mutation of the sequence ends in a TypeError and leaves
    vertices, edges and roots as they were.) *)
Theorem C1_roots_invariant_kept (self : Graph.t) (ms : list mutation) :
  roots_invariant (run ms) ∧
  (∀ v, v ∈ Graph.roots (run ms) ↔
        v ∈ vertices (run ms) ∧ rx.in_degree (Graph.dag (run ms)) v = 0%nat) ∧
  (roots_invariant self → roots_invariant (foldl apply self ms)).
Proof.
  unfold run. rewrite !foldl_apply_unchanged. split_and!.
  - apply roots_invariant_init.
  - intros v. unfold vertices. cbn. rewrite dom_empty_L.
    split; [by intros ?%elem_of_empty|by intros [?%elem_of_empty _]].
  - done.
Qed.

Lemma C1_roots_invariant_kept_witness :
  let ms := [AddNode frame_main; AddChild (PyInt 0) frame_foo;
             AddParent (PyInt 0) frame_foo; AddEdge (PyInt 0) (PyInt 1)] in
  roots_invariant (two_vertices frame_main frame_foo) ∧
  roots_invariant (run ms) ∧
  roots_invariant (foldl apply (two_vertices frame_main frame_foo) ms).
Proof.
  cbn zeta.
  destruct (C1_roots_invariant_kept (two_vertices frame_main frame_foo)
              [AddNode frame_main; AddChild (PyInt 0) frame_foo;
               AddParent (PyInt 0) frame_foo; AddEdge (PyInt 0) (PyInt 1)])
    as (Hrun & _ & Hkept).
  split_and!; [apply roots_invariant_two_vertices|exact Hrun|].
  apply Hkept, roots_invariant_two_vertices.
Defined.

(** C2 (the code departs from it): [add_child] creates no vertex and no
    edge and returns no Node: whatever the graph, the parent and the
    frame, it raises TypeError and leaves the graph as it was.  So it
    does on the graph of one vertex 0, for [add_child(0, frame)]. *)
Theorem C2_add_child_raises (self : Graph.t) (parent : pyobj) (f g : Frame) :
  Graph.add_child self parent g = (Raise TypeError, self) ∧
  vertices (one_vertex f) = {[0]} ∧
  rx.edge_list (Graph.dag (one_vertex f)) = [] ∧
  Graph.add_child (one_vertex f) (PyInt 0) g = (Raise TypeError, one_vertex f) ∧
  Graph.add_child (one_vertex f) (PyNode (mkNode f 0 (-1))) g
    = (Raise TypeError, one_vertex f).
Proof.
  split_and!; [apply add_child_raises| | |apply add_child_raises ..].
  - rewrite one_vertex_eq. unfold vertices. cbn. by rewrite dom_singleton_L.
  - by rewrite one_vertex_eq.
Qed.

(** The library method that [add_child] calls is the one of
    [add_parent]: given the payload and the edge data it requires, it
    makes the new vertex the parent of the vertex named. *)
Example library_add_parent_direction f g :
  ∃ d, rx.add_parent (Graph.dag (one_vertex f)) [PyInt 0; PyNode (mkNode g 1 (-1)); PyNone]
         = (Return 1, d) ∧
       rx.edge_list d = [(1, 0)].
Proof.
  rewrite one_vertex_eq. unfold rx.add_parent, rx.usize.
  rewrite bool_decide_eq_true_2 by lia. cbn.
  unfold rx.has_node. cbn. rewrite bool_decide_eq_true_2 by set_solver.
  eexists. split; reflexivity.
Qed.

(** ** Cycles *)

(** The cycle check of the library decides reachability. *)
Section saturation.
Context (es : list (Z * Z)).

Lemma reachable_trans u v w : reachable es u v → reachable es v w → reachable es u w.
Proof.
  intros Huv Hvw. induction Hvw as [v|v x w _ IH He]; [done|].
  exact (reachable_step es u x w (IH Huv) He).
Qed.

Lemma elem_of_succs (s : gset Z) w :
  w ∈ rx.succs es s ↔ ∃ v, v ∈ s ∧ (v, w) ∈ es.
Proof.
  unfold rx.succs. rewrite elem_of_list_to_set, list_elem_of_fmap. split.
  - intros [[v w'] [-> [Hv He]%list_elem_of_filter]]. by exists v.
  - intros (v & Hv & He). exists (v, w). split; [done|].
    by apply list_elem_of_filter.
Qed.

Lemma elem_of_grow (s : gset Z) w :
  w ∈ rx.grow es s ↔ w ∈ s ∨ ∃ v, v ∈ s ∧ (v, w) ∈ es.
Proof. unfold rx.grow. by rewrite elem_of_union, elem_of_succs. Qed.

Lemma saturate_extensive n (s : gset Z) : s ⊆ rx.saturate n es s.
Proof.
  revert s. induction n as [|n IH]; intros s; [done|]. cbn.
  etrans; [|apply IH]. intros w Hw. apply elem_of_grow. by left.
Qed.

(** Soundness: what saturation collects is reachable from the start. *)
Lemma saturate_sound n (s : gset Z) w :
  w ∈ rx.saturate n es s → ∃ u, u ∈ s ∧ reachable es u w.
Proof.
  revert s. induction n as [|n IH]; intros s Hw; cbn in Hw.
  - exists w. split; [done|constructor].
  - apply IH in Hw as (u & [Hu | (v & Hv & He)]%elem_of_grow & Hreach).
    + by exists u.
    + exists v. split; [done|].
      eapply reachable_trans; [|exact Hreach].
      eapply reachable_step; [constructor|done].
Qed.

(** A set that [grow] does not enlarge holds all that is reachable from
    its members. *)
Lemma closed_reachable (s : gset Z) u w :
  rx.grow es s = s → u ∈ s → reachable es u w → w ∈ s.
Proof.
  intros Hclosed Hu Hreach. induction Hreach as [|u v w _ IH He]; [done|].
  rewrite <- Hclosed. apply elem_of_grow. right. exists v. auto.
Qed.

Lemma saturate_closed n (s : gset Z) : rx.grow es s = s → rx.saturate n es s = s.
Proof. intros Hclosed. induction n as [|n IH]; [done|]. cbn. by rewrite Hclosed. Qed.

(** Each round either reaches a closed set or adds a node. *)
Lemma saturate_progress n (s : gset Z) :
  rx.grow es (rx.saturate n es s) = rx.saturate n es s ∨
  (size s + n ≤ size (rx.saturate n es s))%nat.
Proof.
  revert s. induction n as [|n IH]; intros s; [right; cbn; lia|]. cbn.
  destruct (decide (rx.grow es s = s)) as [Hclosed | Hopen].
  - left. rewrite Hclosed. by rewrite saturate_closed.
  - destruct (IH (rx.grow es s)) as [Hc | Hsize]; [by left|right].
    assert (s ⊂ rx.grow es s) as Hlt%subset_size; [|lia].
    split; [unfold rx.grow; set_solver|].
    intros Hsub. apply Hopen. unfold rx.grow in *. set_solver.
Qed.

(** Everything collected is the start or the head of an edge. *)
Lemma saturate_bounded n (s : gset Z) : rx.saturate n es s ⊆ s ∪ heads es.
Proof.
  intros w (u & Hu & Hreach)%saturate_sound.
  destruct Hreach as [|u v w _ He]; [set_solver|].
  apply elem_of_union. right. apply elem_of_list_to_set, list_elem_of_fmap.
  by exists (v, w).
Qed.

Lemma size_heads : (size (heads es) ≤ length es)%nat.
Proof.
  unfold heads. induction es as [|e es' IH]; cbn.
  - by rewrite size_empty.
  - rewrite size_union_alt, size_singleton.
    assert (size (list_to_set (snd <$> es') ∖ ({[e.2]} : gset Z))
              ≤ size (list_to_set (snd <$> es') : gset Z))%nat
      by (apply subseteq_size; set_solver).
    lia.
Qed.

(** As many rounds as there are edges reach a closed set. *)
Lemma saturate_enough (src : Z) :
  rx.grow es (rx.saturate (length es) es {[src]}) = rx.saturate (length es) es {[src]}.
Proof.
  destruct (saturate_progress (length es) {[src]}) as [Hclosed | Hsize]; [done|].
  rewrite size_singleton in Hsize.
  assert (Hfull : rx.saturate (length es) es {[src]} = {[src]} ∪ heads es).
  { apply set_subseteq_size_eq; [apply saturate_bounded|].
    rewrite size_union_alt, size_singleton.
    assert (size (heads es ∖ {[src]}) ≤ size (heads es))%nat
      by (apply subseteq_size; set_solver).
    pose proof size_heads. lia. }
  apply set_eq. intros w. rewrite elem_of_grow. split; [|by left].
  intros [Hw | (v & Hv & He)]; [done|].
  rewrite Hfull. apply elem_of_union. right.
  apply elem_of_list_to_set, list_elem_of_fmap. by exists (v, w).
Qed.

Lemma saturate_reachable (src tgt : Z) :
  tgt ∈ rx.saturate (length es) es {[src]} ↔ reachable es src tgt.
Proof.
  split.
  - intros (u & ->%elem_of_singleton & Hreach)%saturate_sound. exact Hreach.
  - intros Hreach. eapply closed_reachable; [apply saturate_enough| |exact Hreach].
    apply saturate_extensive. set_solver.
Qed.
End saturation.

Lemma has_path_reachable (d : rx.PyDiGraph) (src tgt : Z) :
  rx.has_path d src tgt = true ↔ reachable (rx.edge_list d) src tgt.
Proof.
  unfold rx.has_path. rewrite bool_decide_eq_true. apply saturate_reachable.
Qed.

(** C6 (the code departs from it): [add_edge] never raises the error of
    the cycle check.  Whatever the graph and the two vertices, the call
    of the library lacks the edge data and raises TypeError; the graph is
    left as it was.  So it is on the graph with the one edge from vertex
    1 to vertex 0, for [add_edge(0, 1)], where vertex 0 is reachable from
    vertex 1. *)
Theorem C6_add_edge_raises_TypeError (self : Graph.t) (parent child : pyobj)
    (f f2 : Frame) :
  Graph.add_edge self parent child = (Raise TypeError, self) ∧
  fst (Graph.add_edge self parent child) ≠ Raise DAGWouldCycle ∧
  vertices (two_vertices f f2) = {[0; 1]} ∧
  reachable (rx.edge_list (Graph.dag (two_vertices f f2))) 1 0 ∧
  Graph.add_edge (two_vertices f f2) (PyInt 0) (PyInt 1)
    = (Raise TypeError, two_vertices f f2).
Proof.
  split_and!; [apply add_edge_raises|by rewrite add_edge_raises| | |apply add_edge_raises].
  - rewrite two_vertices_eq. unfold vertices. cbn.
    rewrite dom_insert_L, dom_singleton_L. set_solver.
  - rewrite two_vertices_eq. cbn.
    apply (reachable_step _ 1 1 0); [apply reachable_refl|apply list_elem_of_here].
Qed.

(** Given the edge data, the library does refuse the edge that closes
    the cycle, and changes nothing. *)
Example library_rejects_cycle f f2 :
  rx.add_edge (Graph.dag (two_vertices f f2)) [PyInt 0; PyInt 1; PyNone]
    = (Raise DAGWouldCycle, Graph.dag (two_vertices f f2)).
Proof.
  rewrite two_vertices_eq. cbn [Graph.dag]. unfold rx.add_edge, rx.usize.
  rewrite !bool_decide_eq_true_2 by lia.
  unfold rx.has_node. cbn.
  rewrite !bool_decide_eq_true_2 by set_solver. cbn.
  unfold rx._add_edge. cbn. reflexivity.
Qed.

(** It looks for a cycle only when the tail of the new edge has an
    entering edge and the head a leaving one: on a vertex without edges
    it accepts the edge from the vertex to itself. *)
Example library_accepts_self_loop f :
  ∃ d, rx.add_edge (Graph.dag (one_vertex f)) [PyInt 0; PyInt 0; PyNone] = (Return (), d) ∧
       rx.edge_list d = [(0, 0)].
Proof.
  rewrite one_vertex_eq. cbn [Graph.dag]. unfold rx.add_edge, rx.usize.
  rewrite !bool_decide_eq_true_2 by lia.
  unfold rx.has_node. cbn.
  rewrite !bool_decide_eq_true_2 by set_solver. cbn.
  eexists. split; reflexivity.
Qed.

(** ** The representative of a merge *)


(** The closure itself, on a list of Nodes, picks by object identity: for
    the same two Nodes of equal Frame, a run that lays them out in the
    order of their ids folds vertex 2 into vertex 1, and a run that lays
    them out the other way round folds vertex 1 into vertex 2. *)
Example find_child_merges_follows_layout :
  Graph._find_child_merges runtime_up [PyNode foo1; PyNode foo2] no_merges
    = Return (Graph.mkMergeState [(foo1, foo1); (foo2, foo1)] [(foo1, [foo1; foo2])] []) ∧
  Graph._find_child_merges runtime_down [PyNode foo1; PyNode foo2] no_merges
    = Return (Graph.mkMergeState [(foo1, foo2); (foo2, foo2)] [(foo2, [foo1; foo2])] []).
Proof. split; vm_compute; reflexivity. Qed.

(** [min(..., key=key)] returns a member whose key is least. *)
Lemma min_by_least {A} (key : A → Z) (best : A) (rest : list A) :
  min_by key best rest ∈ best :: rest ∧
  ∀ x, x ∈ best :: rest → key (min_by key best rest) ≤ key x.
Proof.
  revert best. induction rest as [|y rest IH]; intros best; cbn.
  - split; [apply list_elem_of_here|]. intros x ->%list_elem_of_singleton. lia.
  - destruct (IH (if key y <? key best then y else best)) as [Hin Hle]. split.
    + apply elem_of_cons in Hin as [Heq | Hin].
      * rewrite Heq. destruct (key y <? key best).
        -- apply list_elem_of_further, list_elem_of_here.
        -- apply list_elem_of_here.
      * by do 2 apply list_elem_of_further.
    + intros x Hx.
      assert (Hbest : key (min_by key (if key y <? key best then y else best) rest)
                        ≤ key (if key y <? key best then y else best))
        by apply Hle, list_elem_of_here.
      apply elem_of_cons in Hx as [Hx | [Hx | Hx]%elem_of_cons].
      * subst x. destruct (Z.ltb_spec (key y) (key best)); lia.
      * subst x. destruct (Z.ltb_spec (key y) (key best)); lia.
      * apply Hle. by apply list_elem_of_further.
Qed.

(** * More of the code *)

(** ** add_node, add_parent and sequences of mutations *)

(** X1: [add_node(frame)] raises TypeError on every graph:
    [self.dag.add_node()] is called without the payload the library
    requires.  No vertex is stored, no Node is made, [roots] is not
    extended: the graph is left as it was. *)
Theorem X1_add_node_raises (self : Graph.t) (f : Frame) :
  Graph.add_node self f = (Raise TypeError, self) ∧
  vertices (snd (Graph.add_node self f)) = vertices self ∧
  Graph.roots (snd (Graph.add_node self f)) = Graph.roots self.
Proof. by rewrite add_node_raises. Qed.

(** X2: [add_parent(child, frame)] raises TypeError on every graph and
    for every [child], an [int], a Node or anything else:
    [self.dag.add_parent(child_id)] is called without the payload and the
    edge data.  The graph is left as it was; in particular [child] stays
    in [roots] when it was there. *)
Theorem X2_add_parent_raises (self : Graph.t) (child : pyobj) (f : Frame) :
  Graph.add_parent self child f = (Raise TypeError, self) ∧
  rx.edge_list (Graph.dag (snd (Graph.add_parent self child f)))
    = rx.edge_list (Graph.dag self) ∧
  Graph.roots (snd (Graph.add_parent self child f)) = Graph.roots self.
Proof. by rewrite add_parent_raises. Qed.

(** X3: no sequence of the four mutation operations changes a graph: a
    graph built from [Graph()] has no vertex, no edge and no root, and a
    sequence run on any graph leaves it as it was. *)
Theorem X3_mutations_change_nothing (self : Graph.t) (ms : list mutation) :
  run ms = Graph.__init__ ∧
  vertices (run ms) = ∅ ∧
  rx.edge_list (Graph.dag (run ms)) = [] ∧
  Graph.roots (run ms) = ∅ ∧
  foldl apply self ms = self.
Proof.
  unfold run. rewrite !foldl_apply_unchanged. by split_and!.
Qed.

(** ** Arguments that are no vertex *)

(** X5: a vertex argument that is neither an [int] nor a Node makes
    [add_parent], [add_child], [add_edge] (in either position),
    [get_parents] and [get_children] raise TypeError, and the graph is
    left as it was. *)
Theorem X5_bad_vertex_argument self (x y : pyobj) f :
  (∀ z, x ≠ PyInt z) → (∀ n, x ≠ PyNode n) →
  (∃ z, Graph.index_of y = Return z) →
  Graph.add_parent self x f = (Raise TypeError, self) ∧
  Graph.add_child self x f = (Raise TypeError, self) ∧
  Graph.add_edge self x y = (Raise TypeError, self) ∧
  Graph.add_edge self y x = (Raise TypeError, self) ∧
  Graph.get_parents self x = Raise TypeError ∧
  Graph.get_children self x = Raise TypeError.
Proof.
  intros Hint Hnode [z Hy].
  assert (Hx : Graph.index_of x = Raise TypeError)
    by (destruct x; try done; [by destruct (Hint z0)|by destruct (Hnode n)]).
  unfold Graph.add_parent, Graph.add_child, Graph.add_edge, Graph.get_parents,
    Graph.get_children.
  by rewrite Hx, Hy.
Qed.

Lemma X5_bad_vertex_argument_witness :
  let self := one_vertex frame_main in
  Graph.add_parent self (PyStr "main") frame_foo = (Raise TypeError, self) ∧
  Graph.add_child self (PyStr "main") frame_foo = (Raise TypeError, self) ∧
  Graph.add_edge self (PyStr "main") (PyInt 0) = (Raise TypeError, self) ∧
  Graph.add_edge self (PyInt 0) (PyStr "main") = (Raise TypeError, self) ∧
  Graph.get_parents self (PyStr "main") = Raise TypeError ∧
  Graph.get_children self (PyStr "main") = Raise TypeError.
Proof.
  apply (X5_bad_vertex_argument _ (PyStr "main") (PyInt 0) frame_foo).
  - intros z. discriminate.
  - intros n. discriminate.
  - exists 0. reflexivity.
Defined.

(** ** get_parents and get_children *)






(** On the graph with the edge from vertex 1 to vertex 0: the child of
    vertex 1 is the Node of vertex 0, and a negative index is refused. *)
Example get_children_two_vertices f f2 :
  Graph.get_children (two_vertices f f2) (PyInt 1) = Return [PyNode (mkNode f 0 (-1))] ∧
  Graph.get_parents (two_vertices f f2) (PyInt 0) = Return [PyNode (mkNode f2 1 (-1))] ∧
  Graph.get_children (two_vertices f f2) (PyInt (-1)) = Raise OverflowError.
Proof. rewrite two_vertices_eq. split_and!; vm_compute; reflexivity. Qed.

(** ** update_roots and merge_nodes *)

Lemma elem_of_node_indices d i : i ∈ rx.node_indices d ↔ i ∈ dom (rx.weights d).
Proof. unfold rx.node_indices. by rewrite merge_sort_Permutation, elem_of_elements. Qed.

Lemma update_roots_spec self v :
  v ∈ Graph.roots (Graph.update_roots self) ↔
  v ∈ vertices self ∧ rx.in_degree (Graph.dag self) v = 0%nat.
Proof.
  unfold Graph.update_roots. cbn.
  by rewrite elem_of_list_to_set, list_elem_of_filter, elem_of_node_indices, (comm and).
Qed.

(** X11: whatever [roots] held before, after [update_roots] it is exactly
    the set of vertices that no edge enters; the vertices and edges are
    not touched. *)
Theorem X11_update_roots_recomputes self :
  Graph.dag (Graph.update_roots self) = Graph.dag self ∧
  roots_invariant (Graph.update_roots self) ∧
  ∀ v, v ∈ Graph.roots (Graph.update_roots self) ↔
       v ∈ vertices self ∧ rx.in_degree (Graph.dag self) v = 0%nat.
Proof.
  split_and!; [done| |apply update_roots_spec].
  intros v Hv. rewrite update_roots_spec. cbn. unfold vertices in Hv. cbn in Hv. tauto.
Qed.

Lemma merge_each_distinct d merges :
  (∀ old new, (old, new) ∈ merges →
     in_range (_hatchet_nid old) ∧ in_range (_hatchet_nid new) ∧
     ∃ a b, rx.weights d !! _hatchet_nid old = Some (PyNode a) ∧
            rx.weights d !! _hatchet_nid new = Some (PyNode b) ∧
            _hatchet_nid a ≠ _hatchet_nid b) →
  Graph.merge_each d merges = (Return (), d).
Proof.
  induction merges as [|[old new] merges IH]; intros Hall; [done|].
  destruct (Hall old new) as (Hold & Hnew & a & b & Ha & Hb & Hne);
    [apply list_elem_of_here|].
  cbn [Graph.merge_each]. unfold rx.merge_nodes, rx.usize.
  rewrite (bool_decide_eq_true_2 _ Hold), (bool_decide_eq_true_2 _ Hnew).
  rewrite Ha, Hb. cbn. unfold Node.__eq__.
  rewrite (proj2 (Z.eqb_neq _ _) Hne).
  apply IH. intros o n Hon. by apply Hall, list_elem_of_further.
Qed.

(** X13: [merge_nodes(merges)] on any graph whose vertices hold Nodes:
    when every pair of [merges] names two indices the library accepts,
    at which the graph holds Nodes of different ids, nothing is merged.
    The library merges two vertices only when their payloads are equal,
    and Nodes are equal only when their ids are; the vertices and edges
    stay as they are and only [roots] is recomputed. *)
Theorem X13_merge_nodes_merges_nothing (self : Graph.t) (merges : list (Node_t * Node_t)) :
  (∀ old new, (old, new) ∈ merges →
     in_range (_hatchet_nid old) ∧ in_range (_hatchet_nid new) ∧
     ∃ a b, rx.weights (Graph.dag self) !! _hatchet_nid old = Some (PyNode a) ∧
            rx.weights (Graph.dag self) !! _hatchet_nid new = Some (PyNode b) ∧
            _hatchet_nid a ≠ _hatchet_nid b) →
  Graph.merge_nodes self merges = (Return (), Graph.update_roots self).
Proof.
  intros Hall. unfold Graph.merge_nodes.
  rewrite (merge_each_distinct _ _ Hall). by destruct self.
Qed.

Lemma X13_merge_nodes_merges_nothing_witness :
  let self := two_vertices frame_foo frame_foo in
  let a := mkNode frame_foo 0 (-1) in
  let b := mkNode frame_foo 1 (-1) in
  Graph.merge_nodes self [(b, a)] = (Return (), Graph.update_roots self).
Proof.
  cbn zeta.
  apply (X13_merge_nodes_merges_nothing (two_vertices frame_foo frame_foo)).
  intros old new [= -> ->]%list_elem_of_singleton. rewrite two_vertices_eq. cbn.
  unfold in_range. split_and!; try lia.
  exists (mkNode frame_foo 1 (-1)), (mkNode frame_foo 0 (-1)). split_and!.
  - by rewrite lookup_insert_eq.
  - rewrite lookup_insert_ne by done. by rewrite lookup_singleton_eq.
  - cbn. lia.
Defined.

(** ** index_by *)

Lemma index_append_cons k objs index key obj :
  index_append ((k, objs) :: index) key obj =
    if decide (k = key) then (k, objs ++ [obj]) :: index
    else (k, objs) :: index_append index key obj.
Proof.
  cbn [index_append]. destruct (decide (k = key)) as [Hk | Hk].
  - by rewrite bool_decide_eq_true_2.
  - by rewrite bool_decide_eq_false_2.
Qed.

Lemma index_append_keys index key obj :
  fst <$> index_append index key obj =
    if decide (key ∈ fst <$> index) then fst <$> index else (fst <$> index) ++ [key].
Proof.
  induction index as [|[k objs] index IH]; [done|].
  rewrite index_append_cons. destruct (decide (k = key)) as [-> | Hk].
  - cbn. rewrite decide_True; [done|apply list_elem_of_here].
  - cbn. rewrite IH. destruct (decide (key ∈ fst <$> index)) as [Hin | Hin].
    + rewrite decide_True; [done|by apply list_elem_of_further].
    + rewrite decide_False; [done|].
      intros [Heq | Hin']%elem_of_cons; [by apply Hk|by apply Hin].
Qed.

Lemma index_append_concat index key obj :
  concat (snd <$> index_append index key obj) ≡ₚ obj :: concat (snd <$> index).
Proof.
  induction index as [|[k objs] index IH]; [done|].
  rewrite index_append_cons. destruct (decide (k = key)) as [-> | Hk]; cbn.
  - rewrite <- app_assoc. cbn. by rewrite <- Permutation_middle.
  - rewrite IH. by rewrite Permutation_middle.
Qed.

Lemma index_append_groups index key obj k g :
  (k, g) ∈ index_append index key obj →
  (k = key ∧ g = [obj] ∧ key ∉ fst <$> index) ∨
  (k = key ∧ ∃ g0, g = g0 ++ [obj] ∧ (k, g0) ∈ index) ∨
  (k, g) ∈ index.
Proof.
  induction index as [|[k0 objs] index IH].
  - cbn. intros [= -> ->]%list_elem_of_singleton. left. split_and!; [done|done|].
    apply not_elem_of_nil.
  - rewrite index_append_cons. destruct (decide (k0 = key)) as [-> | Hk].
    + intros [[= -> ->] | Hin]%elem_of_cons.
      * right. left. split; [done|]. exists objs. split; [done|apply list_elem_of_here].
      * right. right. by apply list_elem_of_further.
    + intros [[= -> ->] | Hin]%elem_of_cons.
      * right. right. apply list_elem_of_here.
      * destruct (IH Hin) as [(-> & -> & Hnot) | [(-> & g0 & -> & Hg0) | Hold]].
        -- left. split_and!; [done|done|].
           cbn. intros [Heq | Hin']%elem_of_cons; [by apply Hk|by apply Hnot].
        -- right. left. split; [done|]. exists g0. split; [done|].
           by apply list_elem_of_further.
        -- right. right. by apply list_elem_of_further.
Qed.

(** What [index_by] keeps true of its index while it files the objects. *)
Lemma index_by_loop_spec attr objects index result :
  index_by_loop attr objects index = Return result →
  NoDup (fst <$> index) →
  (∀ k g, (k, g) ∈ index → g ≠ [] ∧ ∀ o, o ∈ g → getattr o attr = Return k) →
  concat (snd <$> result) ≡ₚ concat (snd <$> index) ++ objects ∧
  NoDup (fst <$> result) ∧
  (∀ k g, (k, g) ∈ result → g ≠ [] ∧ ∀ o, o ∈ g → getattr o attr = Return k).
Proof.
  revert index. induction objects as [|obj objects IH]; intros index Hloop Hnodup Hgroups.
  - injection Hloop as <-. by rewrite app_nil_r.
  - cbn [index_by_loop] in Hloop.
    destruct (getattr obj attr) as [key|e] eqn:Hkey; [|done]. cbn in Hloop.
    apply IH in Hloop as (Hperm & Hnodup' & Hgroups').
    + split_and!; [|done|done].
      rewrite Hperm, index_append_concat. apply Permutation_middle.
    + rewrite index_append_keys. destruct (decide (key ∈ fst <$> index)) as [Hin | Hin];
        [done|].
      apply NoDup_app. split_and!; [done| |apply NoDup_singleton].
      intros k Hk ->%list_elem_of_singleton. by apply Hin.
    + intros k g Hkg.
      apply index_append_groups in Hkg
        as [(-> & -> & _) | [(-> & g0 & -> & Hg0) | Hold]].
      * split; [done|]. by intros o ->%list_elem_of_singleton.
      * destruct (Hgroups _ _ Hg0) as [_ Hall]. split; [by destruct g0|].
        intros o [Ho | ->%list_elem_of_singleton]%elem_of_app; auto.
      * by apply Hgroups.
Qed.

(** X14: when [index_by(attr, objects)] returns, its groups together hold
    exactly the objects given (each as often as it was given), no key
    occurs twice, no group is empty, and every object is filed under the
    value of its own attribute. *)
Theorem X14_index_by_partitions attr objects index :
  index_by attr objects = Return index →
  concat (snd <$> index) ≡ₚ objects ∧
  NoDup (fst <$> index) ∧
  (∀ k g, (k, g) ∈ index → g ≠ [] ∧ ∀ o, o ∈ g → getattr o attr = Return k).
Proof.
  intros Hindex. apply index_by_loop_spec in Hindex; [done|constructor|].
  intros k g Hkg. by apply elem_of_nil in Hkg.
Qed.

Lemma X14_index_by_partitions_witness :
  let objects := [PyNode foo1; PyNode (mkNode frame_main 0 (-1)); PyNode foo2] in
  let index := [(PyFrame frame_foo, [PyNode foo1; PyNode foo2]);
                (PyFrame frame_main, [PyNode (mkNode frame_main 0 (-1))])] in
  index_by "frame" objects = Return index ∧
  concat (snd <$> index) ≡ₚ objects ∧
  NoDup (fst <$> index) ∧
  (∀ k g, (k, g) ∈ index → g ≠ [] ∧ ∀ o, o ∈ g → getattr o "frame" = Return k).
Proof.
  split; [vm_compute; reflexivity|].
  apply (X14_index_by_partitions "frame"). vm_compute. reflexivity.
Defined.

Lemma index_by_loop_nodes objects index :
  forallb is_node objects = true →
  ∃ result, index_by_loop "frame" objects index = Return result.
Proof.
  revert index. induction objects as [|obj objects IH]; intros index Hall; [by eexists|].
  cbn in Hall. apply andb_true_iff in Hall as [Hobj Hall].
  destruct obj; try discriminate Hobj. cbn. by apply IH.
Qed.

Lemma index_by_loop_not_nodes objects index :
  forallb is_node objects = false →
  index_by_loop "frame" objects index = Raise AttributeError.
Proof.
  revert index. induction objects as [|obj objects IH]; intros index Hall; [done|].
  cbn in Hall. destruct obj; try reflexivity.
  cbn in *. by apply IH.
Qed.

(** X15: [index_by("frame", objects)] returns exactly when every object is
    a Node; one integer (or other value without a [frame]) anywhere in the
    list makes it raise AttributeError. *)
Theorem X15_index_by_frame_needs_nodes objects :
  (forallb is_node objects = true → ∃ index, index_by "frame" objects = Return index) ∧
  (forallb is_node objects = false → index_by "frame" objects = Raise AttributeError).
Proof.
  split.
  - apply index_by_loop_nodes.
  - apply index_by_loop_not_nodes.
Qed.

Lemma X15_index_by_frame_needs_nodes_witness :
  (∃ index, index_by "frame" [PyNode foo1; PyNode foo2] = Return index) ∧
  index_by "frame" [PyNode foo1; PyInt 2] = Raise AttributeError.
Proof.
  split.
  - apply (proj1 (X15_index_by_frame_needs_nodes [PyNode foo1; PyNode foo2])). reflexivity.
  - apply (proj2 (X15_index_by_frame_needs_nodes [PyNode foo1; PyInt 2])). reflexivity.
Defined.

(** ** _find_child_merges *)

(** Lookup after assignment in a [dict] keyed by Nodes: a key with the
    same id finds the new value, any other key what it found before. *)
Lemma dict_get_set {V} (d : list (Node_t * V)) k v k' :
  dict_get (dict_set d k v) k' = if Node.__eq__ k k' then Some v else dict_get d k'.
Proof.
  unfold Node.__eq__. induction d as [|[k0 v0] d IH]; cbn; [done|].
  unfold Node.__eq__ in *.
  destruct (Z.eqb_spec (_hatchet_nid k0) (_hatchet_nid k)) as [Hk0 | Hk0]; cbn;
    unfold Node.__eq__;
    destruct (Z.eqb_spec (_hatchet_nid k0) (_hatchet_nid k')) as [Hk' | Hk'];
    destruct (Z.eqb_spec (_hatchet_nid k) (_hatchet_nid k')) as [Hkk' | Hkk'];
    try done; congruence.
Qed.

Lemma dict_set_values {V} (P : V → Prop) (d : list (Node_t * V)) k v :
  Forall (λ kv, P (snd kv)) d → P v → Forall (λ kv, P (snd kv)) (dict_set d k v).
Proof.
  intros Hd Hv. induction Hd as [|[k0 v0] d H0 Hd IH]; cbn; [by repeat constructor|].
  destruct (Node.__eq__ k0 k); by constructor.
Qed.

Lemma dict_get_values {V} (P : V → Prop) (d : list (Node_t * V)) k v :
  Forall (λ kv, P (snd kv)) d → dict_get d k = Some v → P v.
Proof.
  induction 1 as [|[k0 v0] d H0 Hd IH]; cbn; [done|].
  destruct (Node.__eq__ k0 k); [by intros [= <-]|done].
Qed.

Lemma min_by_same {A} (key : A → Z) (x : A) : min_by key x [x] = x.
Proof. cbn. by destruct (key x <? key x). Qed.

Lemma Node_eq_refl n : Node.__eq__ n n = true.
Proof. apply Z.eqb_refl. Qed.

(** The inner loop, started with every recorded target equal to the
    representative: it stays so, every child gets that target, and the
    children are appended to the representative's list. *)
Lemma record_merges_spec rt m children st folded :
  Forall (λ kv, snd kv = m) (Graph.merges st) →
  (∀ n, n ∈ folded → dict_get (Graph.merges st) n = Some m) →
  Graph.inverted_merges st = (if decide (folded = []) then [] else [(m, folded)]) →
  let st1 := Graph.record_merges rt m children st in
  Forall (λ kv, snd kv = m) (Graph.merges st1) ∧
  (∀ n, n ∈ folded ++ children → dict_get (Graph.merges st1) n = Some m) ∧
  Graph.inverted_merges st1 =
    (if decide (folded ++ children = []) then [] else [(m, folded ++ children)]) ∧
  Graph.processed st1 = Graph.processed st.
Proof.
  revert st folded. induction children as [|child children IH];
    intros st folded Hvalues Hfolded Hinverted; cbn zeta.
  - rewrite app_nil_r. by cbn.
  - cbn [Graph.record_merges].
    assert (Hprev : default m (dict_get (Graph.merges st) child) = m).
    { destruct (dict_get (Graph.merges st) child) as [v|] eqn:Hget; [|done].
      apply (dict_get_values (λ v, v = m) _ _ _ Hvalues Hget). }
    rewrite Hprev, min_by_same.
    assert (Hinv1 :
      dict_set (Graph.inverted_merges st) m
        (default [] (dict_get (Graph.inverted_merges st) m) ++ [child])
      = [(m, folded ++ [child])]).
    { rewrite Hinverted. destruct (decide (folded = [])) as [-> | Hne]; [done|].
      cbn. by rewrite Node_eq_refl. }
    rewrite Hinv1.
    specialize (IH (Graph.mkMergeState (dict_set (Graph.merges st) child m)
                      [(m, folded ++ [child])] (Graph.processed st))
                   (folded ++ [child])).
    cbn [Graph.merges Graph.inverted_merges Graph.processed] in IH.
    rewrite (cons_middle child folded children), (app_assoc folded [child] children).
    apply IH.
    + by apply (dict_set_values (λ v, v = m)).
    + intros n Hn. rewrite dict_get_set.
      destruct (Node.__eq__ child n) eqn:Heq; [done|].
      apply elem_of_app in Hn as [Hn | ->%list_elem_of_singleton]; [by apply Hfolded|].
      by rewrite Node_eq_refl in Heq.
    + rewrite decide_False; [done|]. by destruct folded.
Qed.

Lemma index_by_loop_one_frame f key_nodes nodes :
  (∀ n, n ∈ nodes → frame n = f) →
  index_by_loop "frame" (PyNode <$> nodes) [(PyFrame f, key_nodes)] =
    Return [(PyFrame f, key_nodes ++ (PyNode <$> nodes))].
Proof.
  revert key_nodes. induction nodes as [|n nodes IH]; intros key_nodes Hall.
  - cbn. by rewrite app_nil_r.
  - cbn [fmap list_fmap index_by_loop getattr]. cbn [String.eqb Ascii.eqb Bool.eqb].
    cbn [obind]. rewrite index_append_cons.
    rewrite (Hall n) by apply list_elem_of_here. rewrite decide_True by done.
    rewrite IH; [by rewrite <- app_assoc|].
    intros n' Hn'. by apply Hall, list_elem_of_further.
Qed.

Lemma as_nodes_nodes nodes : Graph.as_nodes (PyNode <$> nodes) = nodes.
Proof. induction nodes as [|n nodes IH]; [done|]. cbn. by f_equal. Qed.

(** X16: given two or more Nodes that all carry the same Frame, and no
    merges recorded yet, [_find_child_merges] maps every one of them
    (the representative included) to one representative, lists them all
    under it in [inverted_merges], and that representative is a member
    whose object identity [id()] is least. *)
Theorem X16_find_child_merges_one_group rt f c cs :
  cs ≠ [] →
  (∀ n, n ∈ c :: cs → frame n = f) →
  let m := min_by (id_node rt) c cs in
  ∃ st,
    Graph._find_child_merges rt (PyNode <$> c :: cs) no_merges = Return st ∧
    (∀ n, n ∈ c :: cs → dict_get (Graph.merges st) n = Some m) ∧
    Graph.inverted_merges st = [(m, c :: cs)] ∧
    m ∈ c :: cs ∧
    (∀ n, n ∈ c :: cs → id_node rt m ≤ id_node rt n).
Proof.
  intros Hcs Hall m. unfold Graph._find_child_merges, index_by.
  cbn [fmap list_fmap index_by_loop getattr]. cbn [String.eqb Ascii.eqb Bool.eqb].
  cbn [obind index_append].
  rewrite (Hall c) by apply list_elem_of_here.
  rewrite (index_by_loop_one_frame f [PyNode c] cs)
    by (intros n Hn; by apply Hall, list_elem_of_further).
  cbn [obind Graph.merge_groups app].
  rewrite bool_decide_eq_true_2 by (destruct cs; [done|cbn; lia]).
  change (PyNode c :: (PyNode <$> cs)) with (PyNode <$> c :: cs).
  rewrite as_nodes_nodes.
  destruct (record_merges_spec rt m (c :: cs) no_merges []) as (_ & Hget & Hinv & _);
    [constructor|intros n Hn; by apply elem_of_nil in Hn|done|].
  cbn [app] in Hget, Hinv. rewrite decide_False in Hinv by done.
  eexists. split; [reflexivity|]. fold m.
  destruct (min_by_least (id_node rt) c cs) as [Hin Hle].
  by split_and!.
Qed.

Lemma X16_find_child_merges_one_group_witness :
  let m := min_by (id_node runtime_down) foo1 [foo2] in
  m = foo2 ∧
  ∃ st,
    Graph._find_child_merges runtime_down (PyNode <$> [foo1; foo2]) no_merges = Return st ∧
    (∀ n, n ∈ [foo1; foo2] → dict_get (Graph.merges st) n = Some m) ∧
    Graph.inverted_merges st = [(m, [foo1; foo2])] ∧
    m ∈ [foo1; foo2] ∧
    (∀ n, n ∈ [foo1; foo2] → id_node runtime_down m ≤ id_node runtime_down n).
Proof.
  split; [reflexivity|].
  apply (X16_find_child_merges_one_group runtime_down frame_foo foo1 [foo2]).
  - discriminate.
  - intros n [-> | ->%list_elem_of_singleton]%elem_of_cons; reflexivity.
Defined.

Lemma index_append_fresh index key obj :
  key ∉ fst <$> index → index_append index key obj = index ++ [(key, [obj])].
Proof.
  induction index as [|[k objs] index IH]; intros Hkey; [done|].
  rewrite index_append_cons. rewrite decide_False.
  - cbn. f_equal. apply IH. intros Hin. by apply Hkey, list_elem_of_further.
  - intros ->. apply Hkey, list_elem_of_here.
Qed.

Lemma index_by_loop_distinct filed nodes :
  NoDup (frame <$> filed ++ nodes) →
  index_by_loop "frame" (PyNode <$> nodes)
    ((λ n, (PyFrame (frame n), [PyNode n])) <$> filed) =
  Return ((λ n, (PyFrame (frame n), [PyNode n])) <$> filed ++ nodes).
Proof.
  revert filed. induction nodes as [|n nodes IH]; intros filed Hnodup.
  - by rewrite app_nil_r.
  - cbn [fmap list_fmap index_by_loop getattr]. cbn [String.eqb Ascii.eqb Bool.eqb].
    cbn [obind]. rewrite index_append_fresh.
    + specialize (IH (filed ++ [n])).
      rewrite <- app_assoc in IH. cbn [app] in IH.
      rewrite (fmap_app (λ n, (PyFrame (frame n), [PyNode n])) filed [n]) in IH.
      by apply IH.
    + rewrite fmap_app in Hnodup. apply NoDup_app in Hnodup as (_ & Hsep & _).
      rewrite <- list_fmap_compose.
      intros (n' & [= Hframe] & Hn')%list_elem_of_fmap.
      apply (Hsep (frame n')); [by apply list_elem_of_fmap_2|].
      rewrite <- Hframe. apply list_elem_of_here.
Qed.

Lemma merge_groups_singletons rt index st :
  Forall (λ kg, (length (snd kg) ≤ 1)%nat) index →
  Graph.merge_groups rt index st = st.
Proof.
  induction 1 as [|[k g] index Hg _ IH]; [done|].
  cbn [Graph.merge_groups]. cbn in Hg.
  by rewrite bool_decide_eq_false_2 by lia.
Qed.

(** X17: Nodes whose Frames are all different are never merged:
    [_find_child_merges] returns with the merges, the inverted merges and
    the processed list exactly as they were. *)
Theorem X17_find_child_merges_distinct_frames rt nodes st :
  NoDup (frame <$> nodes) →
  Graph._find_child_merges rt (PyNode <$> nodes) st = Return st.
Proof.
  intros Hnodup. unfold Graph._find_child_merges, index_by.
  pose proof (index_by_loop_distinct [] nodes Hnodup) as Hindex.
  cbn [app] in Hindex.
  change (index_by_loop "frame" (PyNode <$> nodes) [] =
          Return ((λ n, (PyFrame (frame n), [PyNode n])) <$> nodes)) in Hindex.
  rewrite Hindex. cbn [obind].
  rewrite merge_groups_singletons; [done|].
  apply Forall_fmap, Forall_forall. intros n _. cbn. lia.
Qed.

Lemma X17_find_child_merges_distinct_frames_witness :
  let nodes := [mkNode frame_main 0 (-1); foo1] in
  NoDup (frame <$> nodes) ∧
  Graph._find_child_merges runtime_up (PyNode <$> nodes) no_merges = Return no_merges.
Proof.
  assert (Hnodup : NoDup (frame <$> [mkNode frame_main 0 (-1); foo1])).
  { cbn. apply NoDup_cons. split; [|apply NoDup_singleton].
    intros Hin%list_elem_of_singleton. discriminate Hin. }
  split; [exact Hnodup|].
  apply (X17_find_child_merges_distinct_frames runtime_up _ no_merges Hnodup).
Defined.

(** ** Node *)

(** X18: the comparisons of Nodes make a total order: of [a < b],
    [a == b] and [a > b] exactly one holds, [a > b] is [b < a], [==] is
    symmetric and [<] is transitive.  Equal Nodes have equal hashes; the
    converse fails, the Nodes of ids -1 and -2 both having the hash -2. *)
Theorem X18_node_order_total (a b c : Node_t) :
  (Node.__lt__ a b || Node.__eq__ a b || Node.__gt__ a b = true) ∧
  (Node.__lt__ a b && Node.__eq__ a b = false) ∧
  (Node.__lt__ a b && Node.__gt__ a b = false) ∧
  (Node.__eq__ a b && Node.__gt__ a b = false) ∧
  Node.__gt__ a b = Node.__lt__ b a ∧
  Node.__eq__ a b = Node.__eq__ b a ∧
  implb (Node.__eq__ a b) (bool_decide (hash a = hash b)) = true ∧
  (Node.__lt__ a b && Node.__lt__ b c && negb (Node.__lt__ a c) = false) ∧
  Node.__eq__ (mkNode (frame a) (-1) (_depth a)) (mkNode (frame a) (-2) (_depth a)) = false ∧
  hash (mkNode (frame a) (-1) (_depth a)) = hash (mkNode (frame a) (-2) (_depth a)).
Proof.
  unfold hash, Node.__lt__, Node.__eq__, Node.__gt__, Node.__hash__.
  rewrite Z.gtb_ltb.
  assert (Hhash : implb (_hatchet_nid a =? _hatchet_nid b)
            (bool_decide (hash_of (_hatchet_nid a) = hash_of (_hatchet_nid b))) = true).
  { destruct (Z.eqb_spec (_hatchet_nid a) (_hatchet_nid b)) as [-> |]; [|done].
    cbn. by rewrite bool_decide_eq_true_2. }
  split_and!; try exact Hhash; try reflexivity;
  destruct (Z.ltb_spec (_hatchet_nid a) (_hatchet_nid b));
    destruct (Z.eqb_spec (_hatchet_nid a) (_hatchet_nid b));
    destruct (Z.ltb_spec (_hatchet_nid b) (_hatchet_nid a));
    destruct (Z.eqb_spec (_hatchet_nid b) (_hatchet_nid a));
    destruct (Z.ltb_spec (_hatchet_nid b) (_hatchet_nid c));
    destruct (Z.ltb_spec (_hatchet_nid a) (_hatchet_nid c));
    try lia; done.
Qed.

(** ** The visitor *)

(** X19: called with its one argument, by position or by keyword, the
    constructor of the visitor accepts exactly the strings "pre" and
    "post": it then returns a visitor with no node recorded and a new,
    empty [visited] table; any other string raises ValueError and
    allocates nothing; with no argument at all it raises TypeError. *)
Theorem X19_visitor_accepts_pre_and_post (s : string) h :
  GraphDFSVistor.__init__ [PyStr s] [] h =
    (if decide (s = "pre"%string ∨ s = "post"%string)
     then (Return (GraphDFSVistor.mk [] (PyStr s) (length h)), h ++ [∅])
     else (Raise ValueError, h)) ∧
  GraphDFSVistor.__init__ [] [("order"%string, PyStr s)] h =
    GraphDFSVistor.__init__ [PyStr s] [] h ∧
  GraphDFSVistor.__init__ [] [] h = (Raise TypeError, h).
Proof.
  split_and!; [|reflexivity|reflexivity].
  destruct (decide (s = "pre"%string ∨ s = "post"%string)) as [Hs | Hs].
  - by apply visitor_known_order.
  - apply visitor_unknown_order; intros ->; apply Hs; auto.
Qed.

(** X20: what the two callbacks record for one vertex.  [discover_vertex]
    adds one to the count filed under the identity of the vertex (starting
    from nothing), touches no other count and no other table;
    [finish_vertex] writes no table; and between them the vertex is
    appended to [node_ids] exactly once, by the first when the order is
    "pre" and by the second when it is "post". *)
Theorem X20_callbacks_record_vertex rt vis h (vertex t1 t2 : Z) tbl :
  GraphDFSVistor.order vis = PyStr "pre" ∨ GraphDFSVistor.order vis = PyStr "post" →
  h !! GraphDFSVistor.visited vis = Some tbl →
  let st1 := GraphDFSVistor.discover_vertex rt (vis, h) vertex t1 in
  let st2 := GraphDFSVistor.finish_vertex st1 vertex t2 in
  ∃ tbl1,
    snd st1 !! GraphDFSVistor.visited vis = Some tbl1 ∧
    default 0 (tbl1 !! id_int rt vertex) = default 0 (tbl !! id_int rt vertex) + 1 ∧
    (∀ key, key ≠ id_int rt vertex → tbl1 !! key = tbl !! key) ∧
    (∀ r, r ≠ GraphDFSVistor.visited vis → snd st1 !! r = h !! r) ∧
    snd st2 = snd st1 ∧
    GraphDFSVistor.node_ids (fst st2) = GraphDFSVistor.node_ids vis ++ [vertex] ∧
    GraphDFSVistor.node_ids (fst st1) =
      (if decide (GraphDFSVistor.order vis = PyStr "pre")
       then GraphDFSVistor.node_ids vis ++ [vertex] else GraphDFSVistor.node_ids vis) ∧
    GraphDFSVistor.visited (fst st2) = GraphDFSVistor.visited vis ∧
    GraphDFSVistor.order (fst st2) = GraphDFSVistor.order vis.
Proof.
  intros Horder Htbl. destruct vis as [ids order visited]. cbn in Horder, Htbl.
  assert (Hlen : (visited < length h)%nat) by (by eapply lookup_lt_Some).
  unfold GraphDFSVistor.discover_vertex, GraphDFSVistor.finish_vertex.
  cbn [GraphDFSVistor.order GraphDFSVistor.visited GraphDFSVistor.node_ids].
  rewrite Htbl. cbn [default].
  exists (match tbl !! id_int rt vertex with
          | Some n => <[id_int rt vertex := n + 1]> tbl
          | None => <[id_int rt vertex := 1]> tbl
          end).
  assert (Hheap : ∀ tbl1 : table, <[visited := tbl1]> h !! visited = Some tbl1)
    by (intros tbl1; by apply list_lookup_insert_eq).
  assert (Hother : ∀ (tbl1 : table) r, r ≠ visited → <[visited := tbl1]> h !! r = h !! r)
    by (intros tbl1 r Hr; by apply list_lookup_insert_ne).
  assert (Hcount :
    default 0 ((match tbl !! id_int rt vertex with
                | Some n => <[id_int rt vertex := n + 1]> tbl
                | None => <[id_int rt vertex := 1]> tbl
                end) !! id_int rt vertex) = default 0 (tbl !! id_int rt vertex) + 1)
    by (destruct (tbl !! id_int rt vertex); by rewrite lookup_insert_eq).
  assert (Hkeys : ∀ key, key ≠ id_int rt vertex →
    (match tbl !! id_int rt vertex with
     | Some n => <[id_int rt vertex := n + 1]> tbl
     | None => <[id_int rt vertex := 1]> tbl
     end) !! key = tbl !! key)
    by (intros key Hkey; destruct (tbl !! id_int rt vertex); by rewrite lookup_insert_ne).
  destruct Horder as [-> | ->]; cbn; split_and!; try done; apply Hother.
Qed.

Lemma X20_callbacks_record_vertex_witness :
  let vis := GraphDFSVistor.mk [] (PyStr "post") 0 in
  let h : heap := [∅] in
  let st1 := GraphDFSVistor.discover_vertex runtime_up (vis, h) 7 0 in
  let st2 := GraphDFSVistor.finish_vertex st1 7 1 in
  GraphDFSVistor.order vis = PyStr "post" ∧ h !! 0%nat = Some ∅ ∧
  ∃ tbl1,
    snd st1 !! 0%nat = Some tbl1 ∧
    default 0 (tbl1 !! 7) = default 0 ((∅ : table) !! 7) + 1 ∧
    (∀ key, key ≠ 7 → tbl1 !! key = (∅ : table) !! key) ∧
    (∀ r, r ≠ 0%nat → snd st1 !! r = h !! r) ∧
    snd st2 = snd st1 ∧
    GraphDFSVistor.node_ids (fst st2) = [] ++ [7] ∧
    GraphDFSVistor.node_ids (fst st1) =
      (if decide (PyStr "post" = PyStr "pre") then [] ++ [7] else []) ∧
    GraphDFSVistor.visited (fst st2) = 0%nat ∧
    GraphDFSVistor.order (fst st2) = PyStr "post".
Proof.
  split; [reflexivity|]. split; [reflexivity|].
  apply (X20_callbacks_record_vertex runtime_up
           (GraphDFSVistor.mk [] (PyStr "post") 0) [∅] 7 0 1 ∅).
  - right. reflexivity.
  - reflexivity.
Defined.

(** ** More on the mutations *)

(** What the library's [add_edge] can do, whatever it is called with: it
    raises and changes nothing, or it returns with the same nodes and no
    edge lost. *)
Lemma library_add_edge_cases d args :
  (∃ e, rx.add_edge d args = (Raise e, d)) ∨
  (∃ d1, rx.add_edge d args = (Return (), d1) ∧
         rx.weights d1 = rx.weights d ∧
         ∀ e, e ∈ rx.edge_list d → e ∈ rx.edge_list d1).
Proof.
  unfold rx.add_edge.
  destruct args as [|[] [|[] [|edge [|]]]]; try (left; by eexists).
  destruct (rx.usize z) as [p|]; [|left; by eexists].
  destruct (rx.usize z0) as [c|]; [|left; by eexists].
  destruct (negb _); [left; by eexists|].
  unfold rx._add_edge.
  destruct (_ && rx.has_path d c p); [left; by eexists|].
  destruct (negb (rx.multigraph d) && _); right; eexists; (split; [reflexivity|]).
  - done.
  - cbn. split; [done|]. intros e He. apply elem_of_app. by left.
Qed.

Lemma remove_if_member (x : Z) (s : gset Z) :
  (if bool_decide (x ∈ s) then s ∖ {[x]} else s) = s ∖ {[x]}.
Proof. case_bool_decide; set_solver. Qed.

(** X22: [add_edge] is all or nothing: when it raises, whatever the
    arguments and the graph, the graph is exactly what it was; when it
    returns, no vertex was added or removed and no root was added. *)
Theorem X22_add_edge_all_or_nothing self parent child :
  let result := Graph.add_edge self parent child in
  (∃ e, fst result = Raise e ∧ snd result = self) ∨
  (fst result = Return () ∧
   vertices (snd result) = vertices self ∧
   Graph.roots (snd result) ⊆ Graph.roots self ∧
   ∀ e, e ∈ rx.edge_list (Graph.dag self) → e ∈ rx.edge_list (Graph.dag (snd result))).
Proof.
  cbn zeta. unfold Graph.add_edge.
  destruct (Graph.index_of parent) as [p|e]; [|left; by eexists].
  destruct (Graph.index_of child) as [c|e]; [|left; by eexists].
  destruct (library_add_edge_cases (Graph.dag self) [PyInt p; PyInt c])
    as [[e ->] | (d1 & -> & Hw & He)].
  - left. exists e. by destruct self.
  - right. cbn. split_and!; [done|by unfold vertices; cbn; rewrite Hw| |exact He].
    rewrite remove_if_member. set_solver.
Qed.
